(** * Recommendation engine of the WorkDev platform: a shallow embedding

    Source: [ml_service/recommendation_engine.py] (classes
    [ProjectRecommendationEngine], [TalentRecommendationEngine] and
    [ColdStartRecommender]).

    Modelling conventions.
    - Python numbers (int and float) are idealised as exact rationals [Q];
      rounding ([round(x, 4)]), truncation ([int(x)]) and division by zero
      are written out.  Equality of scores is [Qeq] unless a value has been
      normalised by [Py.round4].
    - Python dicts used as maps are [gmap string _]; dicts used as records
      with optional keys are records with [option] fields ([None] = key
      absent); sets of skill tags are [gset string].
    - Code that can raise returns a [result]; code that mutates [self] or an
      argument returns the new state next to its result.
    - The wall clock ([datetime.now()]) is an explicit argument [now]. *)

From Stdlib Require Import QArith Qabs Qround Lqa.
From stdpp Require Import gmap strings list fin_maps pretty sorting.

#[local] Open Scope Q_scope.

(** ** Python primitives *)

Module Py.

Inductive exn : Type :=
| ZeroDivisionError
| IndexError
| KeyError (key : string)
| FileNotFoundError
| AttributeError
| UnpicklingError
| ValueError.

Inductive result (A : Type) : Type :=
| Ok (a : A)
| Raise (e : exn).
Arguments Ok {A} a.
Arguments Raise {A} e.

Definition bind {A B} (r : result A) (k : A -> result B) : result B :=
  match r with
  | Ok a => k a
  | Raise e => Raise e
  end.

#[export] Instance result_bind : MBind result := fun A B k r => bind r k.
#[export] Instance result_ret : MRet result := @Ok.

(** [for x in l: acc = body acc x], stopping at the first exception. *)
Fixpoint for_each {A S} (body : S -> A -> result S) (l : list A) (acc : S)
  : result S :=
  match l with
  | [] => Ok acc
  | x :: l' => acc' ← body acc x; for_each body l' acc'
  end.

Definition Qltb (a b : Q) : bool :=
  match a ?= b with Lt => true | _ => false end.

(** [a / b] (true division). *)
Definition div (a b : Q) : result Q :=
  if Qeq_bool b 0 then Raise ZeroDivisionError else Ok (a / b).

(** [min(a, b)] and [max(a, b)]: the first argument wins a tie. *)
Definition min (a b : Q) : Q := if Qltb b a then b else a.
Definition max (a b : Q) : Q := if Qltb a b then b else a.

(** Nearest integer, ties to even. *)
Definition round_half_even (q : Q) : Z :=
  let f := Qfloor q in
  match Qcompare (q - inject_Z f) (1 # 2) with
  | Lt => f
  | Gt => (f + 1)%Z
  | Eq => if Z.even f then f else (f + 1)%Z
  end.

(** [round(q, 4)]; the result is in lowest terms. *)
Definition round4 (q : Q) : Q :=
  Qred (round_half_even (q * 10000) # 10000).

(** [int(q)]: truncation toward zero. *)
Definition int (q : Q) : Z := Z.quot (Qnum q) (Z.pos (Qden q)).

(** [len(s)] of a set, as a number. *)
Definition len (s : gset string) : Q := inject_Z (Z.of_nat (size s)).

(** [set(l)]. *)
Definition set (l : list string) : gset string := list_to_set l.

(** Slice bounds: a negative bound counts from the end, and both are
    clamped to the length. *)
Definition clamp (n : nat) (i : Z) : nat :=
  if (i <? 0)%Z then Z.to_nat (Z.max 0 (Z.of_nat n + i))
  else Z.to_nat (Z.min i (Z.of_nat n)).

(** [l[start:stop]]. *)
Definition slice {A} (l : list A) (start stop : Z) : list A :=
  let a := clamp (length l) start in
  let b := clamp (length l) stop in
  take (b - a) (drop a l).

(** [f"{int(x * 100)}"]. *)
Definition percent (x : Q) : string := pretty (int (x * 100)).

(** [f"{x:.1f}"] for [x >= 0]. *)
Definition format_1f (x : Q) : string :=
  let tenths := round_half_even (x * 10) in
  pretty (tenths / 10)%Z +:+ "." +:+ pretty (tenths mod 10)%Z.

End Py.

Import Py.

Module Data.

(** ** Input records

    The engine receives plain dicts; every key it reads with [.get] is an
    optional field here. *)

(** [developer_profile["preferences"]]. *)
Record Preferences := {
  project_types : option (list string);
  remote_preference : option string;
  industries : option (list string);
}.

(** A developer profile dict. *)
Record Developer := {
  user_id : string;
  skills : option (list string);
  experience_level : option string;
  hourly_rate : option Q;
  preferences : option Preferences;
  average_rating : option Q;
  total_reviews : option Q;
  completion_rate : option Q;
  availability_status : option string;
}.

(** A project dict.  [created_at] is a parsed timestamp in microseconds;
    [budget_range] maps the keys "fixed", "estimated_hours", "min" and
    "max" to finite numbers (a missing "max" is [float("inf")]). *)
Record Project := {
  id : string;
  required_skills : option (list string);
  complexity_level : option string;
  budget_range : option (gmap string Q);
  created_at : option Z;
  project_type : option string;
  is_remote : option bool;
  industry : option string;
  application_count : option Q;
}.

(** A recommendation dict, in either direction: [subject_id] is
    "project_id" or "developer_user_id"; [rank_position] is absent until the
    ranking loop sets it. *)
Record Recommendation := {
  subject_id : string;
  relevance_score : Q;
  scores : gmap string Q;
  explanation : list string;
  model_version : string;
  rank_position : option Z;
}.

(** [rec["rank_position"] = r]. *)
Definition set_rank (r : Z) (rec : Recommendation) : Recommendation :=
  {| subject_id := subject_id rec;
     relevance_score := relevance_score rec;
     scores := scores rec;
     explanation := explanation rec;
     model_version := model_version rec;
     rank_position := Some r |}.

End Data.

Import Data.

(** ** Stable sorting

    [list.sort(key=..., reverse=True)] is stable: equal keys keep their
    original order, also under [reverse=True].  [np.argsort] leaves the
    order of equal values to the sort in use; it is modelled by the stable
    order (equal values by ascending index).  The result of a stable sort
    is unique, so insertion is as good a model of it as any. *)

Section StableSort.
Context {A : Type} (le : A -> A -> bool).

(** Put [x] in front of the first element it is below or equal to. *)
Fixpoint insert_by (x : A) (l : list A) : list A :=
  match l with
  | [] => [x]
  | y :: l' => if le x y then x :: y :: l' else y :: insert_by x l'
  end.

Definition sort_by (l : list A) : list A := foldr insert_by [] l.
End StableSort.

(** [le] on values that carry their original position. *)
Definition tagged_le {A} (le : A -> A -> bool) (a b : nat * A) : bool :=
  le (snd a) (snd b).

(** The positions of [l] in the order in which a stable sort by [le]
    arranges them. *)
Definition stable_order {A} (le : A -> A -> bool) (l : list A) : list nat :=
  (sort_by (tagged_le le) (imap pair l)).*1.

(** [l.sort(key=key, reverse=True)]. *)
Definition sort_desc {A} (key : A -> Q) (l : list A) : list A :=
  sort_by (fun x y => Qle_bool (key y) (key x)) l.

(** [np.argsort(v)]: the indices of [v] in ascending order of value, equal
    values in ascending order of index. *)
Definition argsort (v : list Q) : list nat := stable_order Qle_bool v.

(** [for idx, rec in enumerate(recs): rec["rank_position"] = idx + 1],
    [idx] starting at [start]. *)
Fixpoint assign_ranks (start : Z) (recs : list Recommendation)
  : list Recommendation :=
  match recs with
  | [] => []
  | r :: recs' => set_rank (start + 1) r :: assign_ranks (start + 1) recs'
  end.

(** The tail of every [generate] function: sort by relevance, rank the first
    [limit] entries, return them. *)
Definition rank_and_truncate (limit : Z) (recommendations : list Recommendation)
  : list Recommendation :=
  let sorted := sort_desc relevance_score recommendations in
  assign_ranks 0 (slice sorted 0 limit).

(** ** [class ProjectRecommendationEngine] *)

Module ProjectRecommendationEngine.

(** The fields of [self] written by training and loading.  The similarity
    matrix and the interaction matrix are [None] until a model is trained or
    loaded. *)
Record engine := {
  similarity_model : option (list (list Q));
  user_item_matrix : option (list (list Z));
  user_index : gmap string nat;
  item_index : gmap string nat;
  model_version : string;
}.

(** [__init__]; [today] is [datetime.now().strftime('%Y%m%d')]. *)
Definition init (today : string) : engine :=
  {| similarity_model := None; user_item_matrix := None;
     user_index := ∅; item_index := ∅;
     model_version := "v1.0_" +:+ today |}.

(** [v[i]] on an array: [IndexError] out of range. *)
Definition at_index {A} (v : list A) (i : nat) : result A :=
  match v !! i with
  | Some x => Ok x
  | None => Raise IndexError
  end.

(** [self.user_item_matrix.iloc[i, j]]. *)
Definition iloc (self : engine) (i j : nat) : result Z :=
  match user_item_matrix self with
  | None => Raise AttributeError
  | Some m => row ← at_index m i; at_index row j
  end.

(** [np.argsort(similarity_scores)[::-1][1 : top_k_similar + 1]]. *)
Definition similar_users (similarity_scores : list Q) (top_k_similar : Z)
  : list nat :=
  slice (reverse (argsort similarity_scores)) 1 (top_k_similar + 1).

(** The body of the inner loop of [calculate_collaborative_scores]: one
    neighbour's contribution to [(numerator, denominator)]. *)
Definition visit_neighbour (self : engine) (similarity_scores : list Q)
    (project_idx : nat) (acc : Q * Q) (similar_idx : nat) : result (Q * Q) :=
  similarity ← at_index similarity_scores similar_idx;
  interaction ← iloc self similar_idx project_idx;
  if (0 <? interaction)%Z
  then Ok (fst acc + similarity * inject_Z interaction, snd acc + similarity)
  else Ok acc.

(** The inner loop: [(numerator, denominator)] after every neighbour. *)
Definition neighbour_sums (self : engine) (similarity_scores : list Q)
    (similar_user_indices : list nat) (project_idx : nat) : result (Q * Q) :=
  for_each (visit_neighbour self similarity_scores project_idx)
    similar_user_indices (0, 0).

(** The body of the loop over [candidate_projects]: the score of one
    project. *)
Definition collaborative_score (self : engine) (similarity_scores : list Q)
    (similar_user_indices : list nat) (project_id : string) : result Q :=
  match item_index self !! project_id with
  | None => Ok 0.5
  | Some project_idx =>
      sums ← neighbour_sums self similarity_scores similar_user_indices
                project_idx;
      let numerator := fst sums in
      let denominator := snd sums in
      if Qltb 0 denominator
      then let score := numerator / denominator in
           Ok (Py.min (score / 10) 1)
      else Ok 0.5
  end.

Definition calculate_collaborative_scores (self : engine) (user_id : string)
    (candidate_projects : list string) (top_k_similar : Z)
  : result (gmap string Q) :=
  match similarity_model self, user_index self !! user_id with
  | Some sim, Some user_idx =>
      similarity_scores ← at_index sim user_idx;
      let similar_user_indices :=
        similar_users similarity_scores top_k_similar in
      for_each
        (fun scores project_id =>
           score ← collaborative_score self similarity_scores
                     similar_user_indices project_id;
           Ok (<[project_id := score]> scores))
        candidate_projects ∅
  | _, _ =>
      Ok (foldl (fun scores project_id => <[project_id := 0.5]> scores)
                ∅ candidate_projects)
  end.

(** Lines 171-176: the skill match factor. *)
Definition skill_match (developer_skills required_skills : gset string) : Q :=
  if (0 <? size required_skills)%nat
  then let skill_overlap := len (developer_skills ∩ required_skills) in
       skill_overlap / len required_skills
  else 0.5.

Definition level_map : gmap string Z :=
  list_to_map [("junior", 1); ("mid", 2); ("senior", 3); ("expert", 4)]%Z.
Definition complexity_map : gmap string Z :=
  list_to_map [("low", 1); ("medium", 2); ("high", 3); ("expert", 4)]%Z.

Definition _calculate_experience_fit (developer_level project_complexity : string)
  : Q :=
  let dev_level := default 2%Z (level_map !! developer_level) in
  let proj_complexity := default 2%Z (complexity_map !! project_complexity) in
  let diff := Z.abs (dev_level - proj_complexity) in
  if (diff =? 0)%Z then 1
  else if (diff =? 1)%Z then 0.7
  else 0.4.

(** [hourly_rate <= budget_max] where a missing "max" is [float("inf")]. *)
Definition le_max (hourly_rate : Q) (budget_max : option Q) : bool :=
  match budget_max with
  | None => true
  | Some m => Qle_bool hourly_rate m
  end.

Definition _calculate_budget_alignment (hourly_rate : Q)
    (budget_range : gmap string Q) : result Q :=
  if decide (size budget_range = 0%nat) then Ok 0.5
  else
    match budget_range !! "fixed" with
    | Some fixed_budget =>
        let estimated_hours := default 40 (budget_range !! "estimated_hours") in
        implicit_rate ← div fixed_budget estimated_hours;
        rate_ratio ← div (Py.min implicit_rate hourly_rate)
                         (Py.max implicit_rate hourly_rate);
        Ok rate_ratio
    | None =>
        let budget_min := default 0 (budget_range !! "min") in
        let budget_max := budget_range !! "max" in
        if Qle_bool budget_min hourly_rate && le_max hourly_rate budget_max
        then
          match budget_max with
          | None => Ok 1
          | Some budget_max =>
              position ← div (hourly_rate - budget_min)
                             (budget_max - budget_min);
              Ok (1 - Qabs (0.5 - position) * 0.4)
          end
        else if Qltb hourly_rate budget_min then Ok 0.8
        else
          match budget_max with
          | Some budget_max =>
              ratio ← div budget_max hourly_rate;
              Ok (Py.max (ratio * 0.6) 0.2)
          | None => Ok 0.8 (* not reached: nothing exceeds float("inf") *)
          end
    end.

Definition microseconds_per_day : Z := 86400000000.

(** [(datetime.now() - created_at).days] is the floor of the difference in
    days. *)
Definition _calculate_recency_score (now : Z) (created_at : option Z) : Q :=
  match created_at with
  | None => 0.7
  | Some created_at =>
      let days_old := ((now - created_at) / microseconds_per_day)%Z in
      if (days_old <? 7)%Z then 1
      else if (days_old <? 14)%Z then 0.9
      else if (days_old <? 30)%Z then 0.8
      else 0.7
  end.

Definition no_preferences : Preferences :=
  {| project_types := None; remote_preference := None; industries := None |}.

(** [x in l] for a list of strings. *)
Definition contains (l : list string) (x : string) : bool :=
  bool_decide (x ∈ l).

Definition _calculate_preference_match (preferences : Preferences)
    (project : Project) : Q :=
  let score := 0.5 in
  let matches := 0%Z in
  let total_prefs := 0%Z in
  let '(matches, total_prefs) :=
    match project_types preferences, project_type project with
    | Some types, Some type =>
        (if contains types type then matches + 1 else matches,
         total_prefs + 1)%Z
    | _, _ => (matches, total_prefs)
    end in
  let '(matches, total_prefs) :=
    match remote_preference preferences, is_remote project with
    | Some pref_remote, Some is_remote =>
        (if (String.eqb pref_remote "remote_only" && is_remote)
            || (String.eqb pref_remote "hybrid"
                || String.eqb pref_remote "no_preference")
         then matches + 1
         else if String.eqb pref_remote "onsite_only" && negb is_remote
         then matches + 1
         else matches,
         total_prefs + 1)%Z
    | _, _ => (matches, total_prefs)
    end in
  let '(matches, total_prefs) :=
    match industries preferences, industry project with
    | Some inds, Some ind =>
        (if contains inds ind then matches + 1 else matches,
         total_prefs + 1)%Z
    | _, _ => (matches, total_prefs)
    end in
  if (0 <? total_prefs)%Z
  then inject_Z matches / inject_Z total_prefs
  else score.

(** The score breakdown of one project (the body of the loop of
    [calculate_content_scores]). *)
Definition content_breakdown_of (now : Z) (developer_profile : Developer)
    (project : Project) : result (gmap string Q) :=
  let developer_skills := set (default [] (skills developer_profile)) in
  let experience_level := default "mid" (experience_level developer_profile) in
  let hourly_rate := default 50 (hourly_rate developer_profile) in
  let preferences := default no_preferences (preferences developer_profile) in
  let required_skills := set (default [] (required_skills project)) in
  let skill_match := skill_match developer_skills required_skills in
  let experience_match :=
    _calculate_experience_fit experience_level
      (default "medium" (complexity_level project)) in
  budget_fit ← _calculate_budget_alignment hourly_rate
                 (default ∅ (budget_range project));
  let recency_score := _calculate_recency_score now (created_at project) in
  let preference_match := _calculate_preference_match preferences project in
  let composite_score :=
    skill_match * 0.35 + experience_match * 0.20 + budget_fit * 0.25
    + recency_score * 0.10 + preference_match * 0.10 in
  Ok (list_to_map
        [("skill_match", round4 skill_match);
         ("experience_match", round4 experience_match);
         ("budget_fit", round4 budget_fit);
         ("recency_score", round4 recency_score);
         ("preference_match", round4 preference_match);
         ("composite_score", round4 composite_score)]).

Definition calculate_content_scores (now : Z) (developer_profile : Developer)
    (projects : list Project) : result (gmap string (gmap string Q)) :=
  for_each
    (fun scores project =>
       breakdown ← content_breakdown_of now developer_profile project;
       Ok (<[id project := breakdown]> scores))
    projects ∅.

Definition _generate_explanation (content_breakdown : gmap string Q)
    (collab_score : Q) (profile : Developer) (project : Project)
  : list string :=
  let explanation := [] in
  let skill_match := default 0 (content_breakdown !! "skill_match") in
  let explanation :=
    if Qltb 0.7 skill_match
    then explanation ++ ["Strong skill match (" +:+ percent skill_match +:+ "%)"]
    else if Qltb 0.5 skill_match
    then explanation ++ ["Good skill match (" +:+ percent skill_match +:+ "%)"]
    else explanation in
  let budget_fit := default 0 (content_breakdown !! "budget_fit") in
  let explanation :=
    if Qltb 0.8 budget_fit
    then explanation ++ ["Budget aligns with your rate"]
    else explanation in
  let experience_match := default 0 (content_breakdown !! "experience_match") in
  let explanation :=
    if Qle_bool 0.7 experience_match
    then explanation ++ ["Project complexity matches your experience"]
    else explanation in
  let explanation :=
    if Qltb 0.7 collab_score
    then explanation ++ ["Developers with similar profiles have applied"]
    else explanation in
  let recency := default 0 (content_breakdown !! "recency_score") in
  let explanation :=
    if Qle_bool 1 recency
    then explanation ++ ["Recently posted project"]
    else explanation in
  match explanation with
  | [] => explanation ++ ["Matches your general profile"]
  | _ => explanation
  end.

(** [d[k]] on a dict: [KeyError] when the key is missing. *)
Definition item {V} (d : gmap string V) (k : string) : result V :=
  match d !! k with
  | Some v => Ok v
  | None => Raise (KeyError k)
  end.

Definition default_hybrid_weights : gmap string Q :=
  list_to_map [("collaborative", 0.6); ("content", 0.4)].

Definition generate_project_recommendations (self : engine) (now : Z)
    (developer_id : string) (developer_profile : Developer)
    (candidate_projects : list Project) (limit : Z)
    (hybrid_weights : option (gmap string Q)) : result (list Recommendation) :=
  let hybrid_weights := default default_hybrid_weights hybrid_weights in
  let project_ids := id <$> candidate_projects in
  collaborative_scores ←
    calculate_collaborative_scores self developer_id project_ids 50;
  content_scores ←
    calculate_content_scores now developer_profile candidate_projects;
  recommendations ←
    for_each
      (fun recommendations project =>
         let project_id := id project in
         let collab_score := default 0.5 (collaborative_scores !! project_id) in
         let content_breakdown := default ∅ (content_scores !! project_id) in
         let content_score :=
           default 0.5 (content_breakdown !! "composite_score") in
         w_collab ← item hybrid_weights "collaborative";
         w_content ← item hybrid_weights "content";
         let relevance_score :=
           collab_score * w_collab + content_score * w_content in
         let explanation :=
           _generate_explanation content_breakdown collab_score
             developer_profile project in
         Ok (recommendations ++
             [{| subject_id := project_id;
                 relevance_score := round4 relevance_score;
                 scores := list_to_map
                   [("collaborative_score", round4 collab_score);
                    ("content_score", round4 content_score);
                    ("skill_match_score",
                     default 0.5 (content_breakdown !! "skill_match"));
                    ("budget_fit_score",
                     default 0.5 (content_breakdown !! "budget_fit"));
                    ("experience_match_score",
                     default 0.5 (content_breakdown !! "experience_match"));
                    ("recency_score",
                     default 0.7 (content_breakdown !! "recency_score"))];
                 explanation := explanation;
                 Data.model_version := model_version self;
                 rank_position := None |}]))
      candidate_projects [];
  Ok (rank_and_truncate limit recommendations).

(** *** Persistence *)

(** The dict that [save_model] pickles.  A key that a blob on disk lacks is
    [None] here; the two matrices may themselves be Python's [None]. *)
Record model_data := {
  md_similarity_model : option (option (list (list Q)));
  md_user_item_matrix : option (option (list (list Z)));
  md_user_index : option (gmap string nat);
  md_item_index : option (gmap string nat);
  md_model_version : option string;
  md_saved_at : option Z;
}.

(** What a path holds: bytes that [pickle.load] rejects, or a pickled
    dict.  A path outside the map does not exist. *)
Inductive file_content : Type :=
| Garbage
| Pickled (d : model_data).

Definition save_model (self : engine) (now : Z) (filepath : string)
    (fs : gmap string file_content) : gmap string file_content :=
  let model_data :=
    {| md_similarity_model := Some (similarity_model self);
       md_user_item_matrix := Some (user_item_matrix self);
       md_user_index := Some (user_index self);
       md_item_index := Some (item_index self);
       md_model_version := Some (model_version self);
       md_saved_at := Some now |} in
  <[filepath := Pickled model_data]> fs.

(** [with open(filepath, "rb") as f: model_data = pickle.load(f)]. *)
Definition read_pickle (fs : gmap string file_content) (filepath : string)
  : result model_data :=
  match fs !! filepath with
  | None => Raise FileNotFoundError
  | Some Garbage => Raise UnpicklingError
  | Some (Pickled d) => Ok d
  end.

Definition set_similarity_model (v : option (list (list Q))) (self : engine) :=
  {| similarity_model := v; user_item_matrix := user_item_matrix self;
     user_index := user_index self; item_index := item_index self;
     model_version := model_version self |}.
Definition set_user_item_matrix (v : option (list (list Z))) (self : engine) :=
  {| similarity_model := similarity_model self; user_item_matrix := v;
     user_index := user_index self; item_index := item_index self;
     model_version := model_version self |}.
Definition set_user_index (v : gmap string nat) (self : engine) :=
  {| similarity_model := similarity_model self;
     user_item_matrix := user_item_matrix self;
     user_index := v; item_index := item_index self;
     model_version := model_version self |}.
Definition set_item_index (v : gmap string nat) (self : engine) :=
  {| similarity_model := similarity_model self;
     user_item_matrix := user_item_matrix self;
     user_index := user_index self; item_index := v;
     model_version := model_version self |}.
Definition set_model_version (v : string) (self : engine) :=
  {| similarity_model := similarity_model self;
     user_item_matrix := user_item_matrix self;
     user_index := user_index self; item_index := item_index self;
     model_version := v |}.

(** [self.field = model_data[key]]: the assignment happens only when the
    key is there; otherwise [self] stays as the earlier assignments left
    it and [KeyError] is raised. *)
Definition assign {V} (key : string) (v : option V)
    (setter : V -> engine -> engine) (self : engine) : engine * result unit :=
  match v with
  | Some v => (setter v self, Ok ())
  | None => (self, Raise (KeyError key))
  end.

(** Run [step] on the state left by a step that returned normally. *)
Definition and_then (r : engine * result unit)
    (step : engine -> engine * result unit) : engine * result unit :=
  match r with
  | (self, Ok _) => step self
  | (self, Raise e) => (self, Raise e)
  end.

(** [load_model]: the state of [self] after the call, and how the call
    ended. *)
Definition load_model (self : engine) (fs : gmap string file_content)
    (filepath : string) : engine * result unit :=
  match read_pickle fs filepath with
  | Raise e => (self, Raise e)
  | Ok model_data =>
      and_then (and_then (and_then (and_then
        (assign "similarity_model" (md_similarity_model model_data)
           set_similarity_model self)
        (assign "user_item_matrix" (md_user_item_matrix model_data)
           set_user_item_matrix))
        (assign "user_index" (md_user_index model_data) set_user_index))
        (assign "item_index" (md_item_index model_data) set_item_index))
        (assign "model_version" (md_model_version model_data)
           set_model_version)
  end.

(** *** Training *)

(** One row of the interaction DataFrame, with the columns the docstring of
    [train_collaborative_model] names. *)
Record interaction := {
  user_id : string;
  project_id : string;
  interaction_type : string;
  timestamp : Z;
}.

(** The interaction DataFrame: its rows, and its "weight" column when it has
    one ([None] in the column is NaN). *)
Record DataFrame := {
  rows : list interaction;
  weight : option (list (option Z));
}.

(** The labelled matrix that [unstack] returns. *)
Record Matrix := {
  index : list string;
  columns : list string;
  values : list (list Z);
}.

Definition weight_map : gmap string Z :=
  list_to_map [("view", 1); ("apply", 3); ("hire", 5)]%Z.

(** The sorted distinct labels of a grouping key. *)
Definition labels (l : list string) : list string :=
  sort_by String.leb (remove_dups l).

(** [groupby([...])["weight"].sum()] at one (user, project) pair; NaN is
    skipped, and a pair without rows gets [fill_value=0]. *)
Definition group_sum (rows : list interaction) (weights : list (option Z))
    (u p : string) : Z :=
  foldr (fun rw acc =>
           if String.eqb (user_id (fst rw)) u
              && String.eqb (project_id (fst rw)) p
           then (default 0 (snd rw) + acc)%Z else acc)
        0%Z (zip rows weights).

(** [_create_interaction_matrix]: the DataFrame as the call leaves it, and
    the matrix. *)
Definition _create_interaction_matrix (interaction_data : DataFrame)
  : DataFrame * Matrix :=
  let weights :=
    (fun r => weight_map !! interaction_type r) <$> rows interaction_data in
  let interaction_data :=
    {| rows := rows interaction_data; weight := Some weights |} in
  let users := labels (user_id <$> rows interaction_data) in
  let projects := labels (project_id <$> rows interaction_data) in
  let matrix_data :=
    {| index := users; columns := projects;
       values :=
         (fun u => (fun p => group_sum (rows interaction_data) weights u p)
                     <$> projects) <$> users |} in
  (interaction_data, matrix_data).

(** [{label: idx for idx, label in enumerate(labels)}]. *)
Definition index_of (l : list string) : gmap string nat :=
  list_to_map (imap (fun idx label => (label, idx)) l).

Record metrics := {
  num_users : nat;
  num_items : nat;
  sparsity : option Q;
  metrics_model_version : string;
}.

(** [x.astype(bool).sum().sum()]. *)
Definition count_nonzero (m : list (list Z)) : nat :=
  sum_list ((fun row => length (filter (fun z => z <> 0%Z) row)) <$> m).

(** [x.size]. *)
Definition matrix_size (m : list (list Z)) : nat :=
  sum_list (length <$> m).

Section Training.
(** [sklearn.metrics.pairwise.cosine_similarity], which rejects some inputs
    (an empty matrix, for one). *)
Context (cosine_similarity : list (list Z) -> result (list (list Q))).

(** [train_collaborative_model]: [self] and the caller's DataFrame as the
    call leaves them, and the metrics. *)
Definition train_collaborative_model (self : engine)
    (interaction_data : DataFrame) : engine * DataFrame * result metrics :=
  let '(interaction_data, matrix_data) :=
    _create_interaction_matrix interaction_data in
  let self := set_user_item_matrix (Some (values matrix_data)) self in
  match cosine_similarity (values matrix_data) with
  | Raise e => (self, interaction_data, Raise e)
  | Ok sim =>
      let self := set_similarity_model (Some sim) self in
      let self := set_user_index (index_of (index matrix_data)) self in
      let self := set_item_index (index_of (columns matrix_data)) self in
      let total := matrix_size (values matrix_data) in
      (self, interaction_data,
       Ok {| num_users := size (user_index self);
             num_items := size (item_index self);
             sparsity :=
               if decide (total = 0%nat) then None
               else Some (1 - inject_Z (Z.of_nat (count_nonzero (values matrix_data)))
                              / inject_Z (Z.of_nat total));
             metrics_model_version := model_version self |})
  end.
End Training.

(** [_calculate_skill_overlap] (lines 214-224): Jaccard similarity. *)
Definition _calculate_skill_overlap (developer_skills required_skills
    : gset string) : Q :=
  if decide (size required_skills = 0%nat) then 0.5
  else
    let intersection := len (developer_skills ∩ required_skills) in
    let union := len (developer_skills ∪ required_skills) in
    if Qltb 0 union then intersection / union else 0.

End ProjectRecommendationEngine.

(** ** [class TalentRecommendationEngine] *)

Module TalentRecommendationEngine.

Record engine := {
  model_version : string;
}.

(** [__init__]; [today] is [datetime.now().strftime('%Y%m%d')]. *)
Definition init (today : string) : engine :=
  {| model_version := "v1.0_" +:+ today |}.

(** Lines 531-536: the skill match factor. *)
Definition skill_match (dev_skills required_skills : gset string) : Q :=
  if negb (size required_skills =? 0)%nat
  then let skill_overlap := len (dev_skills ∩ required_skills) in
       skill_overlap / len required_skills
  else 0.5.

Definition level_map : gmap string Z :=
  list_to_map [("junior", 1); ("mid", 2); ("senior", 3); ("expert", 4)]%Z.
Definition complexity_map : gmap string Z :=
  list_to_map [("low", 1); ("medium", 2); ("high", 3); ("expert", 4)]%Z.

Definition _calculate_experience_fit (dev_level complexity : string) : Q :=
  let dev_level_num := default 2%Z (level_map !! dev_level) in
  let complexity_num := default 2%Z (complexity_map !! complexity) in
  let diff := Z.abs (dev_level_num - complexity_num) in
  if (diff =? 0)%Z then 1
  else if (diff =? 1)%Z then 0.7
  else 0.4.

Definition _calculate_budget_alignment (hourly_rate : Q)
    (budget_range : gmap string Q) : result Q :=
  if decide (size budget_range = 0%nat) then Ok 0.5
  else
    let budget_min := default 0 (budget_range !! "min") in
    let budget_max := budget_range !! "max" in
    if Qle_bool budget_min hourly_rate
       && ProjectRecommendationEngine.le_max hourly_rate budget_max
    then Ok 1
    else if Qltb hourly_rate budget_min then Ok 0.8
    else
      match budget_max with
      | Some budget_max =>
          ratio ← div budget_max hourly_rate;
          Ok (Py.max (ratio * 0.6) 0.2)
      | None => Ok 0.8 (* not reached: nothing exceeds float("inf") *)
      end.

Definition _calculate_reputation_score (developer : Developer) : Q :=
  let avg_rating := default 4 (average_rating developer) in
  let total_reviews := default 0 (total_reviews developer) in
  let completion_rate := default 0.8 (completion_rate developer) in
  let rating_score := (avg_rating - 1) / 4 in
  let review_credibility := Py.min (total_reviews / 20) 1 in
  let reputation :=
    rating_score * 0.6 + completion_rate * 0.3 + review_credibility * 0.1 in
  Py.min reputation 1.

Definition status_scores : gmap string Q :=
  list_to_map [("available", 1); ("partially_available", 0.7);
               ("busy", 0.3); ("unknown", 0.5)].

Definition _calculate_availability_score (developer : Developer) : Q :=
  let availability_status :=
    default "unknown" (availability_status developer) in
  default 0.5 (status_scores !! availability_status).

Definition _generate_talent_explanation (skill_match experience_match
    budget_fit reputation : Q) (developer : Developer) : list string :=
  let explanation := [] in
  let explanation :=
    if Qltb 0.7 skill_match
    then explanation ++ ["Strong skill match (" +:+ percent skill_match +:+ "%)"]
    else explanation in
  let explanation :=
    if Qle_bool 0.7 experience_match
    then explanation ++ ["Experience level matches project complexity"]
    else explanation in
  let explanation :=
    if Qltb 0.8 budget_fit
    then explanation ++ ["Rate within your budget"]
    else explanation in
  let explanation :=
    if Qltb 0.8 reputation
    then let avg_rating := default 4 (average_rating developer) in
         explanation ++ ["Highly rated (" +:+ format_1f avg_rating +:+ "/5.0)"]
    else explanation in
  let explanation :=
    if bool_decide (availability_status developer = Some "available")
    then explanation ++ ["Currently available"]
    else explanation in
  match explanation with
  | [] => explanation ++ ["Matches project requirements"]
  | _ => explanation
  end.

Definition generate_talent_recommendations (self : engine) (project : Project)
    (candidate_developers : list Developer) (limit : Z)
  : result (list Recommendation) :=
  let required_skills := set (default [] (required_skills project)) in
  let project_complexity := default "medium" (complexity_level project) in
  let budget_range := default ∅ (budget_range project) in
  recommendations ←
    for_each
      (fun recommendations developer =>
         let dev_skills := set (default [] (skills developer)) in
         let skill_match := skill_match dev_skills required_skills in
         let experience_match :=
           _calculate_experience_fit
             (default "mid" (experience_level developer)) project_complexity in
         let hourly_rate := default 50 (hourly_rate developer) in
         budget_fit ← _calculate_budget_alignment hourly_rate budget_range;
         let reputation_score := _calculate_reputation_score developer in
         let availability_score := _calculate_availability_score developer in
         let relevance_score :=
           skill_match * 0.35 + experience_match * 0.20 + budget_fit * 0.20
           + reputation_score * 0.15 + availability_score * 0.10 in
         let explanation :=
           _generate_talent_explanation skill_match experience_match
             budget_fit reputation_score developer in
         Ok (recommendations ++
             [{| subject_id := user_id developer;
                 relevance_score := round4 relevance_score;
                 scores := list_to_map
                   [("skill_match_score", round4 skill_match);
                    ("experience_match_score", round4 experience_match);
                    ("budget_fit_score", round4 budget_fit);
                    ("reputation_score", round4 reputation_score);
                    ("availability_score", round4 availability_score)];
                 explanation := explanation;
                 Data.model_version := model_version self;
                 rank_position := None |}]))
      candidate_developers [];
  Ok (rank_and_truncate limit recommendations).

End TalentRecommendationEngine.

(** ** [class ColdStartRecommender] *)

Module ColdStartRecommender.

Record recommender := {
  popular_projects : list Project;
  popular_developers : list Developer;
}.

Definition set_popular_items (self : recommender) (projects : list Project)
    (developers : list Developer) : recommender :=
  {| popular_projects := projects; popular_developers := developers |}.

(** Lines 717-720: the skill match factor. *)
Definition skill_match (dev_skills required_skills : gset string) : Q :=
  if negb (size required_skills =? 0)%nat
  then len (dev_skills ∩ required_skills) / len required_skills
  else 0.5.

(** The dict appended for one popular project. *)
Definition recommendation_of (dev_skills : gset string) (project : Project)
  : Recommendation :=
  let required_skills := set (default [] (required_skills project)) in
  let skill_match := skill_match dev_skills required_skills in
  let application_count := default 0 (application_count project) in
  let popularity_score := Py.min (application_count / 50) 1 in
  let relevance_score := popularity_score * 0.7 + skill_match * 0.3 in
  {| subject_id := id project;
     relevance_score := round4 relevance_score;
     scores := list_to_map [("skill_match_score", round4 skill_match)];
     explanation :=
       ["Popular project on the platform";
        "Matches " +:+ percent skill_match +:+ "% of your skills"];
     model_version := "cold_start_v1";
     rank_position := None |}.

Definition get_cold_start_project_recommendations (self : recommender)
    (developer_profile : Developer) (limit : Z) : list Recommendation :=
  let dev_skills := set (default [] (skills developer_profile)) in
  let recommendations :=
    recommendation_of dev_skills <$> popular_projects self in
  rank_and_truncate limit recommendations.

End ColdStartRecommender.

Module Proj := ProjectRecommendationEngine.
Module Talent := TalentRecommendationEngine.
Module Cold := ColdStartRecommender.

(** ** Model management endpoints of [api/main.py] *)

Module Api.

(** The module-level state that the model endpoints read and write. *)
Record server := {
  project_engine : Proj.engine;
  MODEL_LOADED : bool;
}.

(** What a [try] block can raise: a Python exception, or an
    [HTTPException] with its status code. *)
Inductive raised : Type :=
| PyExn (e : exn)
| Http (status_code : Z).

(** How a request ends: a response body, or an [HTTPException]. *)
Inductive reply (A : Type) : Type :=
| Response (body : A)
| HTTPException (status_code : Z).
Arguments Response {A} body.
Arguments HTTPException {A} status_code.

(** The [try] block of [reload_model] (lines 277-291): the state it leaves
    and the "model_version" of the response, or what it raised. *)
Definition reload_model_try (s : server)
    (fs : gmap string Proj.file_content) (model_path : string)
  : server * (string + raised) :=
  match fs !! model_path with
  | None => (s, inr (Http 404))
  | Some _ =>
      match Proj.load_model (project_engine s) fs model_path with
      | (engine, Raise e) =>
          ({| project_engine := engine; MODEL_LOADED := MODEL_LOADED s |},
           inr (PyExn e))
      | (engine, Ok _) =>
          ({| project_engine := engine; MODEL_LOADED := true |},
           inl (Proj.model_version engine))
      end
  end.

(** [reload_model]: [except Exception] turns whatever the block raised,
    its own [HTTPException] included, into status 500. *)
Definition reload_model (s : server) (fs : gmap string Proj.file_content)
    (model_path : string) : server * reply string :=
  match reload_model_try s fs model_path with
  | (s', inl version) => (s', Response version)
  | (s', inr _) => (s', HTTPException 500)
  end.

(** [startup_event] (lines 130-146). *)
Definition startup_event (s : server) (fs : gmap string Proj.file_content)
    (model_path : string) : server :=
  match fs !! model_path with
  | Some _ =>
      match Proj.load_model (project_engine s) fs model_path with
      | (engine, Ok _) => {| project_engine := engine; MODEL_LOADED := true |}
      | (engine, Raise _) =>
          {| project_engine := engine; MODEL_LOADED := false |}
      end
  | None => {| project_engine := project_engine s; MODEL_LOADED := false |}
  end.

(** The body of [get_model_info] (lines 300-323); the sparsity of a matrix
    without cells is NaN ([None] inside), and there is no sparsity at all
    without a matrix. *)
Record model_info := {
  info_model_version : string;
  info_model_loaded : bool;
  info_num_users : nat;
  info_num_projects : nat;
  info_matrix_sparsity : option (option Q);
}.

Definition get_model_info (s : server) : model_info :=
  let engine := project_engine s in
  {| info_model_version := Proj.model_version engine;
     info_model_loaded := MODEL_LOADED s;
     info_num_users :=
       match Proj.user_item_matrix engine with
       | Some _ => size (Proj.user_index engine)
       | None => 0%nat
       end;
     info_num_projects :=
       match Proj.user_item_matrix engine with
       | Some _ => size (Proj.item_index engine)
       | None => 0%nat
       end;
     info_matrix_sparsity :=
       match Proj.user_item_matrix engine with
       | Some m =>
           Some (if decide (Proj.matrix_size m = 0%nat) then None
                 else Some (1 - inject_Z (Z.of_nat (Proj.count_nonzero m))
                                / inject_Z (Z.of_nat (Proj.matrix_size m))))
       | None => None
       end |}.

End Api.

(** ** Concrete inputs used by the examples below *)

Module Examples.

Definition range_80_120 : gmap string Q :=
  list_to_map [("min", 80); ("max", 120)].

Definition developer_python_react : Developer :=
  {| user_id := "dev-1"; skills := Some ["python"; "react"];
     experience_level := Some "mid"; hourly_rate := Some 50;
     preferences := None; average_rating := None; total_reviews := None;
     completion_rate := None; availability_status := None |}.

Definition project_python_react_aws : Project :=
  {| id := "proj-1"; required_skills := Some ["python"; "react"; "aws"];
     complexity_level := Some "expert"; budget_range := None;
     created_at := None; project_type := None; is_remote := None;
     industry := None; application_count := None |}.

(** A popular project with [count] applications that requires [required]. *)
Definition popular (name : string) (count : Q) (required : list string)
  : Project :=
  {| id := name; required_skills := Some required;
     complexity_level := None; budget_range := None; created_at := None;
     project_type := None; is_remote := None; industry := None;
     application_count := Some count |}.

(** 25 applications, two of five required skills in the profile. *)
Definition popular_25 : Project :=
  popular "pop-25" 25 ["python"; "react"; "aws"; "go"; "sql"].

(** No applications, one of seven required skills in the profile. *)
Definition popular_0 : Project :=
  popular "pop-0" 0 ["python"; "aws"; "go"; "sql"; "rust"; "java"; "c"].

(** A project created at time 0. *)
Definition day_zero_project : Project :=
  {| id := "proj-0"; required_skills := None; complexity_level := None;
     budget_range := None; created_at := Some 0%Z; project_type := None;
     is_remote := None; industry := None; application_count := None |}.

(** A developer with the given skills and nothing else filled in. *)
Definition developer_with (name : string) (tags : list string) : Developer :=
  {| user_id := name; skills := Some tags; experience_level := None;
     hourly_rate := None; preferences := None; average_rating := None;
     total_reviews := None; completion_rate := None;
     availability_status := None |}.

(** Two developers with the same profile and a third with every skill. *)
Definition three_developers : list Developer :=
  [developer_with "dev-a" ["python"]; developer_with "dev-b" ["python"];
   developer_with "dev-c" ["python"; "react"; "aws"]].

(** A blob that has lost every key but the first. *)
Definition truncated_blob : ProjectRecommendationEngine.model_data :=
  {| ProjectRecommendationEngine.md_similarity_model := Some (Some [[1]]);
     ProjectRecommendationEngine.md_user_item_matrix := None;
     ProjectRecommendationEngine.md_user_index := None;
     ProjectRecommendationEngine.md_item_index := None;
     ProjectRecommendationEngine.md_model_version := None;
     ProjectRecommendationEngine.md_saved_at := None |}.

Definition disk_with_truncated_blob
  : gmap string ProjectRecommendationEngine.file_content :=
  {[ "model.pkl" := ProjectRecommendationEngine.Pickled truncated_blob ]}.

(** Two users who each viewed the same project once. *)
Definition two_views : ProjectRecommendationEngine.DataFrame :=
  {| ProjectRecommendationEngine.rows :=
       [ {| ProjectRecommendationEngine.user_id := "u0";
            ProjectRecommendationEngine.project_id := "p";
            ProjectRecommendationEngine.interaction_type := "view";
            ProjectRecommendationEngine.timestamp := 0 |};
         {| ProjectRecommendationEngine.user_id := "u1";
            ProjectRecommendationEngine.project_id := "p";
            ProjectRecommendationEngine.interaction_type := "view";
            ProjectRecommendationEngine.timestamp := 1 |} ];
     ProjectRecommendationEngine.weight := None |}.

(** Three users, two projects; the similarities are rounded cosines. *)
Definition small_engine : Proj.engine :=
  {| Proj.similarity_model :=
       Some [[1; 1 # 2; 0]; [1 # 2; 1; 3 # 4]; [0; 3 # 4; 1]];
     Proj.user_item_matrix := Some [[1; 0]; [3; 5]; [0; 1]]%Z;
     Proj.user_index := list_to_map [("u0", 0); ("u1", 1); ("u2", 2)]%nat;
     Proj.item_index := list_to_map [("p0", 0); ("p1", 1)]%nat;
     Proj.model_version := "v1.0_20250101" |}.

(** The cosine similarities of two users with the same interactions. *)
Definition twin_similarity : list (list Q) := [[1; 1]; [1; 1]].

(** The engine after training on [two_views]. *)
Definition twin_engine : Proj.engine :=
  fst (fst (Proj.train_collaborative_model (fun _ => Ok twin_similarity)
              (Proj.init "20250101") two_views)).

End Examples.

Import Examples.

(** ** Definitions that follow the words of the specification *)

Module Spec.





Definition Qsum (l : list Q) : Q := foldr Qplus 0 l.

(** The neighbour-weighted score in the words of the specification:
    [sim n] is the similarity of neighbour [n] to the target and
    [interaction n] its interaction weight on the candidate. *)
Definition neighbour_average (sim : nat -> Q) (interaction : nat -> Z)
    (neighbours : list nat) : Q :=
  let active := filter (fun n => interaction n <> 0%Z) neighbours in
  let numerator :=
    Qsum ((fun n => sim n * inject_Z (interaction n)) <$> active) in
  let denominator := Qsum (sim <$> active) in
  if Qeq_bool denominator 0 then 0.5
  else Py.min ((numerator / denominator) / 10) 1.

(** Entry [n] of a similarity row, and entry [(n, j)] of the interaction
    matrix; 0 outside. *)
Definition similarity_of (row : list Q) (n : nat) : Q :=
  default 0 (row !! n).
Definition interaction_of (matrix : list (list Z)) (j n : nat) : Z :=
  default 0%Z (matrix !! n ≫= (.!! j)).

(** What training guarantees and scoring for the similarity row [row]
    relies on: the matrix has a row per user and a column per indexed
    item, and no weight or similarity is negative. *)
Definition consistent (self : Proj.engine) (row : list Q)
    (matrix : list (list Z)) : Prop :=
  Proj.user_item_matrix self = Some matrix
  /\ length row = length matrix
  /\ (forall p j, Proj.item_index self !! p = Some j ->
                  Forall (fun r => (j < length r)%nat) matrix)
  /\ Forall (fun s => 0 <= s) row
  /\ Forall (Forall (fun z => (0 <= z)%Z)) matrix.

(** [a] may stand in front of [b] in a stable sort by [le]: it is strictly
    first in the order, or the two tie and [a] has the smaller original
    position. *)
Definition before {A} (le : A -> A -> bool) (a b : nat * A) : Prop :=
  le (snd a) (snd b) = true
  /\ (le (snd b) (snd a) = true -> (fst a < fst b)%nat).

(** [out] is the ranking of [recs] cut at [limit]: some arrangement [order]
    of the positions of [recs] goes by descending score, ties by ascending
    position, and [out] holds its first min(limit, count) entries with the
    ranks 1, 2, ... *)
Definition ranked (recs : list Recommendation) (limit : Z)
    (out : list Recommendation) : Prop :=
  length out = Z.to_nat (Z.min limit (Z.of_nat (length recs)))
  /\ (forall k r, out !! k = Some r ->
                  rank_position r = Some (Z.of_nat k + 1)%Z)
  /\ (forall k r r', out !! k = Some r -> out !! S k = Some r' ->
                     relevance_score r' <= relevance_score r)
  /\ exists order : list nat,
      order ≡ₚ seq 0 (length recs)
      /\ (forall k r, out !! k = Some r ->
            exists a r0, order !! k = Some a /\ recs !! a = Some r0
                         /\ r = set_rank (Z.of_nat k + 1) r0)
      /\ (forall i j a b ra rb,
            (i < j)%nat -> order !! i = Some a -> order !! j = Some b ->
            recs !! a = Some ra -> recs !! b = Some rb ->
            relevance_score rb < relevance_score ra
            \/ (relevance_score ra == relevance_score rb /\ (a < b)%nat)).

End Spec.

Import Spec.

(** ** Vocabulary of the further properties *)

Module Props.

(** A developer whose numbers are in the range the request model asks
    for, the defaults of the engine filled in. *)
Definition plausible (developer : Developer) : Prop :=
  0 < default 50 (hourly_rate developer)
  /\ 1 <= default 4 (average_rating developer)
  /\ 0 <= default 0 (total_reviews developer)
  /\ 0 <= default 0.8 (completion_rate developer).



(** [l] lists positions of [row] by non-increasing value. *)
Definition descending (row : list Q) (l : list nat) : Prop :=
  forall i j a b sa sb,
    (i < j)%nat -> l !! i = Some a -> l !! j = Some b ->
    row !! a = Some sa -> row !! b = Some sb -> sb <= sa.

(** The snapshot can score for [user_id]: either the cold path applies, or
    the user's similarity row exists and the snapshot is consistent. *)
Definition scorable (self : Proj.engine) (user_id : string) : Prop :=
  match Proj.similarity_model self, Proj.user_index self !! user_id with
  | Some sim, Some u =>
      exists row matrix, sim !! u = Some row /\ consistent self row matrix
  | _, _ => True
  end.

End Props.

Import Props.

(** ** Further concrete inputs *)

Module Cases.

(** A fixed budget of 4000 (for the default 40 hours). *)
Definition fixed_4000 : gmap string Q := {[ "fixed" := 4000 ]}.

(** Preferences that name a remote preference only. *)
Definition hybrid_preferences : Preferences :=
  {| project_types := None; remote_preference := Some "hybrid";
     industries := None |}.

(** An on-site project. *)
Definition on_site_project : Project :=
  {| id := "proj-2"; required_skills := None; complexity_level := None;
     budget_range := None; created_at := None; project_type := None;
     is_remote := Some false; industry := None; application_count := None |}.

(** The server before start-up, and a disk that holds a saved snapshot. *)
Definition fresh_server : Api.server :=
  {| Api.project_engine := Proj.init "20250101"; Api.MODEL_LOADED := false |}.

Definition disk_with_snapshot : gmap string Proj.file_content :=
  Proj.save_model small_engine 0 "model.pkl" ∅.

(** A DataFrame without rows. *)
Definition no_interactions : Proj.DataFrame :=
  {| Proj.rows := []; Proj.weight := None |}.

End Cases.

Import Cases.

(** ** Proof steps that recur *)

(** Case analysis on every comparison the goal branches on. *)
Ltac split_ifs :=
  repeat match goal with
         | |- context [Qltb ?a ?b] => destruct (Qltb a b)
         | |- context [Qle_bool ?a ?b] => destruct (Qle_bool a b)
         | |- context [bool_decide ?P] => destruct (bool_decide P)
         end.


(** A bind that returned normally: name what its first step returned. *)
Ltac bind_ok H :=
  match type of H with
  | (?r ≫= _) = Ok _ =>
      let E := fresh "E" in destruct r eqn:E; [simpl in H|discriminate H]
  end.

(** * Verification *)

(** ** Arithmetic of the primitives *)

Lemma Qltb_lt a b : Qltb a b = true <-> a < b.
Proof.
  unfold Qltb, Qlt, Z.lt, Qcompare. destruct (_ ?= _)%Z; split; congruence.
Qed.

Lemma Qltb_ge a b : Qltb a b = false <-> b <= a.
Proof.
  rewrite <- not_true_iff_false, Qltb_lt.
  split; [apply Qnot_lt_le | apply Qle_not_lt].
Qed.

Lemma Qle_bool_false a b : Qle_bool a b = false <-> b < a.
Proof.
  rewrite <- not_true_iff_false, Qle_bool_iff.
  split; [apply Qnot_le_lt | apply Qlt_not_le].
Qed.

Lemma div_nonzero a b : ~ b == 0 -> div a b = Ok (a / b).
Proof.
  intros Hb. unfold div. destruct (Qeq_bool b 0) eqn:E; [|done].
  by apply Qeq_bool_iff in E.
Qed.

Lemma nat_ratio_bounds (a b : nat) :
  (0 < b)%nat -> (a <= b)%nat ->
  0 <= inject_Z (Z.of_nat a) / inject_Z (Z.of_nat b) <= 1.
Proof.
  intros Hb Hab.
  assert (0 < inject_Z (Z.of_nat b)) as Hpos.
  { change 0 with (inject_Z 0). rewrite <- Zlt_Qlt. lia. }
  split.
  - apply Qle_shift_div_l; [done|]. rewrite Qmult_0_l.
    change 0 with (inject_Z 0). rewrite <- Zle_Qle. lia.
  - apply Qle_shift_div_r; [done|]. rewrite Qmult_1_l.
    rewrite <- Zle_Qle. lia.
Qed.

Lemma nat_ratio_one (a b : nat) :
  (0 < b)%nat ->
  inject_Z (Z.of_nat a) / inject_Z (Z.of_nat b) == 1 <-> a = b.
Proof.
  intros Hb.
  assert (~ inject_Z (Z.of_nat b) == 0) as Hnz.
  { change 0 with (inject_Z 0). rewrite inject_Z_injective. lia. }
  split.
  - intros H. apply (Qmult_inj_r _ _ (inject_Z (Z.of_nat b))) in H; [|done].
    unfold Qdiv in H.
    rewrite <- Qmult_assoc, (Qmult_comm (/ _)), Qmult_inv_r in H; [|done].
    rewrite Qmult_1_r, Qmult_1_l, inject_Z_injective in H. lia.
  - intros ->. by apply Qmult_inv_r.
Qed.

(** ** Skill match (lines 170-176, 531-536, 717-720) *)

Lemma size_pos (s : gset string) : s ≠ ∅ -> (0 < size s)%nat.
Proof.
  intros Hne. destruct (size s) eqn:E; [|lia].
  apply size_empty_inv in E. exfalso. apply Hne. by apply leibniz_equiv.
Qed.

Lemma skill_match_same (profile required : gset string) :
  Talent.skill_match profile required = Proj.skill_match profile required
  /\ Cold.skill_match profile required = Proj.skill_match profile required.
Proof.
  unfold Talent.skill_match, Cold.skill_match, Proj.skill_match.
  by destruct (size required).
Qed.

Lemma skill_match_nonempty (profile required : gset string) :
  required ≠ ∅ ->
  Proj.skill_match profile required
  = len (profile ∩ required) / len required.
Proof.
  intros Hne%size_pos. unfold Proj.skill_match.
  by destruct (Nat.ltb_spec 0 (size required)); [|lia].
Qed.

(** C8: the skill match factor is 0.5 for an empty required set and
    |profile ∩ required| / |required| otherwise; for a non-empty required
    set it lies in [0, 1] and is 1 exactly when every required skill is in
    the profile.  The developers-for-project scorer computes the same
    value as the projects-for-developer scorer. *)
Theorem skill_match_correct (profile required : gset string) :
  Talent.skill_match profile required = Proj.skill_match profile required
  /\ (required = ∅ -> Proj.skill_match profile required = 0.5)
  /\ (required ≠ ∅ ->
      Proj.skill_match profile required
      = inject_Z (Z.of_nat (size (profile ∩ required)))
        / inject_Z (Z.of_nat (size required))
      /\ 0 <= Proj.skill_match profile required <= 1
      /\ (Proj.skill_match profile required == 1 <-> required ⊆ profile)).
Proof.
  split; [apply skill_match_same|]. split.
  - intros ->. reflexivity.
  - intros Hne. rewrite skill_match_nonempty by done. unfold len.
    pose proof (size_pos _ Hne) as Hpos.
    assert (size (profile ∩ required) <= size required)%nat as Hle.
    { apply subseteq_size, intersection_subseteq_r. }
    split; [done|]. split; [by apply nat_ratio_bounds|].
    rewrite nat_ratio_one by done. split.
    + intros Heq.
      assert (profile ∩ required ≡ required) as Hsame.
      { apply set_subseteq_size_equiv; [apply intersection_subseteq_r | lia]. }
      intros x Hx. rewrite <- Hsame in Hx.
      by apply elem_of_intersection in Hx as [? _].
    + intros Hsub. f_equal.
      rewrite (comm_L (∩)). by apply subseteq_intersection_1_L.
Qed.

Lemma skill_match_correct_witness :
  0 <= Proj.skill_match (set ["python"; "react"])
                         (set ["python"; "react"; "aws"]) <= 1.
Proof.
  destruct (skill_match_correct (set ["python"; "react"])
                                (set ["python"; "react"; "aws"]))
    as (_ & _ & H).
  apply H. intros Hempty. apply (f_equal size) in Hempty.
  vm_compute in Hempty. discriminate Hempty.
Defined.

(** ** Budget alignment (lines 250-288 and 605-619) *)

Lemma midrange_score_one p : 1 - Qabs (0.5 - p) * 0.4 == 1 <-> p == 0.5.
Proof. apply Qabs_case; intros; split; intros; lra. Qed.

Lemma midrange_score_edge p :
  0 <= p <= 1 -> (1 - Qabs (0.5 - p) * 0.4 == 0.8 <-> p == 0 \/ p == 1).
Proof.
  intros [H0 H1]. apply Qabs_case; intros Hs; split.
  - intros. left. lra.
  - intros [|]; lra.
  - intros. right. lra.
  - intros [|]; lra.
Qed.

(** The projects-for-developer direction follows the position formula on
    every range with [min < max]: 1.0 exactly at the midpoint, 0.8 exactly
    at the two boundaries. *)
Lemma project_budget_in_range (r bmin bmax : Q) (range : gmap string Q) :
  range !! "fixed" = None -> range !! "min" = Some bmin ->
  range !! "max" = Some bmax -> bmin <= r <= bmax -> bmin < bmax ->
  let position := (r - bmin) / (bmax - bmin) in
  let score := 1 - Qabs (0.5 - position) * 0.4 in
  Proj._calculate_budget_alignment r range = Ok score
  /\ (score == 1 <-> r == (bmin + bmax) / 2)
  /\ (score == 0.8 <-> r == bmin \/ r == bmax).
Proof.
  intros Hfixed Hmin Hmax [Hlo Hhi] Hlt position score.
  assert (0 < bmax - bmin) as Hd by lra.
  assert (~ bmax - bmin == 0) as Hnz.
  { intros Hz. rewrite Hz in Hd. by apply Qlt_irrefl in Hd. }
  assert (position * (bmax - bmin) == r - bmin) as Hp.
  { unfold position, Qdiv.
    rewrite <- Qmult_assoc, (Qmult_comm (/ _)), Qmult_inv_r; [lra|done]. }
  split; [|split].
  - unfold Proj._calculate_budget_alignment.
    destruct (decide _) as [Hsz|_].
    { apply map_size_empty_iff in Hsz. by rewrite Hsz in Hmin. }
    rewrite Hfixed, Hmin, Hmax. simpl.
    apply Qle_bool_iff in Hlo, Hhi. rewrite Hlo, Hhi. simpl.
    by rewrite div_nonzero.
  - unfold score. rewrite midrange_score_one.
    assert ((bmin + bmax) / 2 == (bmin + bmax) * (1 # 2)) as -> by reflexivity.
    split; intros H.
    + rewrite H in Hp. lra.
    + assert ((position - 0.5) * (bmax - bmin) == 0) as Hz by lra.
      apply Qmult_integral in Hz as [|]; lra.
  - assert (0 <= position <= 1) as Hrange.
    { unfold position. split.
      - apply Qle_shift_div_l; lra.
      - apply Qle_shift_div_r; lra. }
    unfold score. rewrite midrange_score_edge by done. split; intros [H|H].
    + left. rewrite H in Hp. lra.
    + right. rewrite H in Hp. lra.
    + left. assert (position * (bmax - bmin) == 0) as Hz by lra.
      apply Qmult_integral in Hz as [|]; lra.
    + right. assert ((position - 1) * (bmax - bmin) == 0) as Hz by lra.
      apply Qmult_integral in Hz as [|]; lra.
Qed.

(** C1: at an hourly rate on the boundary of the range {min: 80, max: 120}
    the projects-for-developer scorer returns 0.8, as the position formula
    says, but the developers-for-project scorer returns 1.0 (and it returns
    1.0 on the other boundary as well): it ignores the position inside the
    range. *)
Theorem talent_budget_alignment_ignores_position :
  Talent._calculate_budget_alignment 80 range_80_120 = Ok 1
  /\ Talent._calculate_budget_alignment 120 range_80_120 = Ok 1
  /\ (exists q, Proj._calculate_budget_alignment 80 range_80_120 = Ok q
                /\ q == 0.8).
Proof.
  split; [by vm_compute|]. split; [by vm_compute|].
  eexists. split; [by vm_compute|]. reflexivity.
Qed.

(** On a range with [min = max] the position is a division by zero. *)
Lemma project_budget_degenerate_range :
  Proj._calculate_budget_alignment 80 (list_to_map [("min", 80); ("max", 80)])
  = Raise ZeroDivisionError.
Proof. by vm_compute. Qed.

(** ** Sorting and ranking: where the elements come from *)

Section StableSortFacts.
Context {A : Type} (le : A -> A -> bool).

Lemma insert_by_perm x l : insert_by le x l ≡ₚ x :: l.
Proof.
  induction l as [|y l IH]; simpl; [done|].
  destruct (le x y); [done|]. rewrite IH. apply Permutation_swap.
Qed.

Lemma sort_by_perm l : sort_by le l ≡ₚ l.
Proof.
  induction l as [|x l IH]; simpl; [done|].
  by rewrite insert_by_perm, IH.
Qed.
End StableSortFacts.

Lemma elem_of_slice {A} (x : A) l a b : x ∈ slice l a b -> x ∈ l.
Proof.
  unfold slice. intros H%elem_of_take. destruct H as (i & H & _).
  rewrite lookup_drop in H. by apply list_elem_of_lookup_2 in H.
Qed.

Lemma elem_of_assign_ranks r s l :
  r ∈ assign_ranks s l -> exists r0 k, r0 ∈ l /\ r = set_rank k r0.
Proof.
  revert s. induction l as [|r1 l IH]; simpl; intros s H.
  - by apply elem_of_nil in H.
  - apply elem_of_cons in H as [->|H].
    + exists r1, (s + 1)%Z. split; [left|done].
    + destruct (IH _ H) as (r0 & k & ? & ?).
      exists r0, k. split; [by right|done].
Qed.

Lemma elem_of_rank_and_truncate r limit l :
  r ∈ rank_and_truncate limit l -> exists r0 k, r0 ∈ l /\ r = set_rank k r0.
Proof.
  unfold rank_and_truncate, sort_desc. intros H%elem_of_assign_ranks.
  destruct H as (r0 & k & H & ->). exists r0, k. split; [|done].
  apply elem_of_slice in H. by rewrite sort_by_perm in H.
Qed.

(** ** Rounding sees the value only *)

#[export] Instance round_half_even_proper : Proper (Qeq ==> eq) round_half_even.
Proof.
  intros q q' Hq. unfold round_half_even.
  rewrite (Qfloor_comp _ _ Hq).
  assert (q - inject_Z (Qfloor q') == q' - inject_Z (Qfloor q')) as Hr
    by (by rewrite Hq).
  by rewrite (Qcompare_comp _ _ Hr _ _ (Qeq_refl _)).
Qed.


(** ** Cold start (lines 703-747) *)




(** ** Explanations (lines 431-468 and 650-680) *)



(** End to end: skills {python, react} against {python, react, aws}. *)
Lemma project_explanation_example recs :
  Proj.generate_project_recommendations (Proj.init "20250101") 0 "dev-1"
    developer_python_react [project_python_react_aws] 10 None = Ok recs ->
  explanation <$> recs = [["Good skill match (66%)"]].
Proof. vm_compute. intros [= <-]. reflexivity. Qed.




(** ** Loading a model (lines 486-497) *)

(** C3: when [load_model] raises, [model_version] is as it was; every
    field is as it was when the file is missing, is not a pickle, or lacks
    the key "similarity_model".  For a blob that lacks a later key, the
    fields assigned before the missing key hold the values of the blob and
    the others are as they were. *)
Theorem load_model_failure_frame (self self' : Proj.engine)
    (fs : gmap string Proj.file_content) (filepath : string) (e : exn) :
  Proj.load_model self fs filepath = (self', Raise e) ->
  Proj.model_version self' = Proj.model_version self
  /\ (fs !! filepath = None \/ fs !! filepath = Some Proj.Garbage
      \/ (exists d, fs !! filepath = Some (Proj.Pickled d)
                    /\ Proj.md_similarity_model d = None) ->
      self' = self)
  /\ (forall d, fs !! filepath = Some (Proj.Pickled d) ->
      Proj.similarity_model self'
      = default (Proj.similarity_model self) (Proj.md_similarity_model d)
      /\ Proj.user_item_matrix self'
         = match Proj.md_similarity_model d, Proj.md_user_item_matrix d with
           | Some _, Some v => v
           | _, _ => Proj.user_item_matrix self
           end
      /\ Proj.user_index self'
         = match Proj.md_similarity_model d, Proj.md_user_item_matrix d,
                 Proj.md_user_index d with
           | Some _, Some _, Some v => v
           | _, _, _ => Proj.user_index self
           end
      /\ Proj.item_index self'
         = match Proj.md_similarity_model d, Proj.md_user_item_matrix d,
                 Proj.md_user_index d, Proj.md_item_index d with
           | Some _, Some _, Some _, Some v => v
           | _, _, _, _ => Proj.item_index self
           end).
Proof.
  unfold Proj.load_model, Proj.read_pickle. intros H.
  destruct (fs !! filepath) as [[|d]|] eqn:Hfile.
  - injection H as <- <-. split; [done|]. split; [done|]. intros d [=].
  - destruct d as [[s|] [m|] [u|] [i|] [v|] t]; simpl in H;
      try discriminate H; injection H as <- <-; (split; [done|]);
      (split; [|by intros d [= <-]]);
      intros [[=]|[[=]|(d & [= <-] & [=])]]; done.
  - injection H as <- <-. split; [done|]. split; [done|]. intros d [=].
Qed.

Lemma load_model_failure_frame_witness :
  Proj.model_version
    (fst (Proj.load_model (Proj.init "20250101") disk_with_truncated_blob
            "model.pkl"))
  = "v1.0_20250101".
Proof.
  destruct (load_model_failure_frame (Proj.init "20250101")
              (fst (Proj.load_model (Proj.init "20250101")
                      disk_with_truncated_blob "model.pkl"))
              disk_with_truncated_blob "model.pkl"
              (KeyError "user_item_matrix"))
    as [H _].
  - reflexivity.
  - rewrite H. reflexivity.
Defined.

(** A blob with "similarity_model" but without "user_item_matrix" leaves
    the new similarity matrix in place. *)
Lemma load_model_partial_overwrite :
  ~ (forall self self' fs filepath e,
        Proj.load_model self fs filepath = (self', Raise e) -> self' = self).
Proof.
  intros H.
  specialize (H (Proj.init "20250101") _ disk_with_truncated_blob "model.pkl"
                _ eq_refl).
  apply (f_equal Proj.similarity_model) in H. vm_compute in H.
  discriminate H.
Qed.

(** ** Training (lines 35-92) *)

(** C10: training writes a "weight" column into the caller's DataFrame: a
    frame that had no such column differs after the call, whatever
    [cosine_similarity] does afterwards; its rows are untouched. *)
Theorem training_mutates_input
    (cosine_similarity : list (list Z) -> result (list (list Q)))
    (self : Proj.engine) (interaction_data : Proj.DataFrame) :
  Proj.weight interaction_data = None ->
  let after :=
    snd (fst (Proj.train_collaborative_model cosine_similarity self
                interaction_data)) in
  after <> interaction_data
  /\ Proj.rows after = Proj.rows interaction_data
  /\ Proj.weight after
     = Some ((fun r => Proj.weight_map !! Proj.interaction_type r)
               <$> Proj.rows interaction_data)
  /\ after = fst (Proj._create_interaction_matrix interaction_data).
Proof.
  intros Hnone after. subst after.
  unfold Proj.train_collaborative_model. simpl.
  destruct (cosine_similarity _); simpl.
  all: split;
    [intros H; apply (f_equal Proj.weight) in H; simpl in H; congruence|done].
Qed.

Lemma training_mutates_input_witness :
  Proj.weight
    (snd (fst (Proj.train_collaborative_model (fun _ => Raise ValueError)
                 (Proj.init "20250101") two_views)))
  = Some [Some 1%Z; Some 1%Z].
Proof.
  destruct (training_mutates_input (fun _ => Raise ValueError)
              (Proj.init "20250101") two_views eq_refl) as (_ & _ & H & _).
  rewrite H. reflexivity.
Defined.

(** ** The clock (lines 290-314) *)

Lemma for_each_ext {A S} (f g : S -> A -> result S) (l : list A) (acc : S) :
  (forall x a, x ∈ l -> f a x = g a x) -> for_each f l acc = for_each g l acc.
Proof.
  revert acc. induction l as [|x l IH]; intros acc H; simpl; [done|].
  rewrite (H x acc) by left. destruct (g acc x); simpl; [|done].
  apply IH. intros y a' Hy. apply H. by right.
Qed.

Lemma recency_same_age (now1 now2 : Z) (created : option Z) :
  (forall c, created = Some c ->
             ((now1 - c) / Proj.microseconds_per_day
              = (now2 - c) / Proj.microseconds_per_day)%Z) ->
  Proj._calculate_recency_score now1 created
  = Proj._calculate_recency_score now2 created.
Proof.
  intros H. destruct created as [c|]; simpl; [|done]. by rewrite (H c eq_refl).
Qed.

(** C5: the content scores, and with them the whole recommendation list,
    read the clock: two runs on the same arguments agree whenever every
    candidate with a creation timestamp has the same age in whole days at
    both clock readings.  (The collaborative scorer and the explanation
    generator take no clock at all, and no scorer returns a new engine
    state.) *)
Theorem scores_follow_clock_through_age (now1 now2 : Z) (profile : Developer)
    (projects : list Project) :
  (forall p c, p ∈ projects -> created_at p = Some c ->
               ((now1 - c) / Proj.microseconds_per_day
                = (now2 - c) / Proj.microseconds_per_day)%Z) ->
  Proj.calculate_content_scores now1 profile projects
  = Proj.calculate_content_scores now2 profile projects
  /\ forall self developer_id limit hybrid_weights,
      Proj.generate_project_recommendations self now1 developer_id profile
        projects limit hybrid_weights
      = Proj.generate_project_recommendations self now2 developer_id profile
          projects limit hybrid_weights.
Proof.
  intros Hage.
  assert (Proj.calculate_content_scores now1 profile projects
          = Proj.calculate_content_scores now2 profile projects) as Hcs.
  { unfold Proj.calculate_content_scores. apply for_each_ext.
    intros p scores Hp. unfold Proj.content_breakdown_of.
    by rewrite (recency_same_age now1 now2 (created_at p) (fun c => Hage p c Hp)). }
  split; [done|]. intros self developer_id limit hw.
  unfold Proj.generate_project_recommendations. by rewrite Hcs.
Qed.

Lemma scores_follow_clock_through_age_witness :
  Proj.calculate_content_scores 0 developer_python_react [day_zero_project]
  = Proj.calculate_content_scores 1 developer_python_react [day_zero_project].
Proof.
  apply (scores_follow_clock_through_age 0 1 developer_python_react
           [day_zero_project]).
  intros p c Hp%list_elem_of_singleton Hc. subst p. injection Hc as <-.
  reflexivity.
Defined.

(** The same project scored on its first day and forty days later. *)
Lemma content_score_varies_with_clock :
  ~ (forall now1 now2 profile projects,
        Proj.calculate_content_scores now1 profile projects
        = Proj.calculate_content_scores now2 profile projects).
Proof.
  intros H.
  specialize (H 0%Z (40 * Proj.microseconds_per_day)%Z developer_python_react
                [day_zero_project]).
  apply (f_equal (fun r => match r with
                           | Ok m => m !! "proj-0" ≫= (.!! "recency_score")
                           | Raise _ => None
                           end)) in H.
  vm_compute in H. discriminate H.
Qed.

(** ** Stable sorting: the order of the result *)

Lemma StronglySorted_lookup {A} (R : relation A) (l : list A) i j a b :
  StronglySorted R l -> (i < j)%nat -> l !! i = Some a -> l !! j = Some b ->
  R a b.
Proof.
  intros Hs. revert i j. induction Hs as [|x l Hs IH Hall]; intros i j Hij Hi Hj.
  - by rewrite lookup_nil in Hi.
  - destruct j as [|j]; [lia|]. destruct i as [|i]; simpl in *.
    + injection Hi as <-. rewrite Forall_forall in Hall.
      apply Hall. by apply list_elem_of_lookup_2 in Hj.
    + apply (IH i j); [lia|done..].
Qed.

Section StableSortOrder.
Context {A : Type} (le : A -> A -> bool).
Hypothesis le_total : forall x y, le x y = true \/ le y x = true.
Hypothesis le_trans :
  forall x y z, le x y = true -> le y z = true -> le x z = true.

#[local] Abbreviation tagged_le := (tagged_le le).
#[local] Abbreviation before := (before le).

Lemma insert_tagged_sorted x s :
  StronglySorted before s -> Forall (fun y => (fst x < fst y)%nat) s ->
  StronglySorted before (insert_by tagged_le x s).
Proof.
  intros Hs. induction Hs as [|y s Hs IH Hall]; intros Hx; simpl.
  - repeat constructor.
  - apply Forall_cons in Hx as [Hxy Hx]. unfold tagged_le at 1.
    destruct (le (snd x) (snd y)) eqn:E.
    + constructor; [by constructor|]. constructor; [by split|].
      rewrite Forall_forall in *. intros z Hz.
      destruct (Hall z Hz) as [Hyz _]. split; [by eapply le_trans|].
      intros _. by apply Hx.
    + assert (le (snd y) (snd x) = true) as Hyx.
      { by destruct (le_total (snd x) (snd y)) as [H|H]; [congruence|]. }
      constructor; [by apply IH|].
      rewrite Forall_forall. intros z Hz.
      rewrite insert_by_perm in Hz. apply elem_of_cons in Hz as [->|Hz].
      * split; [done|]. congruence.
      * rewrite Forall_forall in Hall. by apply Hall.
Qed.

Lemma sort_tagged_sorted (L : list (nat * A)) :
  StronglySorted (fun a b => (fst a < fst b)%nat) L ->
  StronglySorted before (sort_by tagged_le L).
Proof.
  induction 1 as [|x L Hs IH Hall]; simpl; [constructor|].
  apply insert_tagged_sorted; [done|].
  rewrite Forall_forall in *. intros y Hy. rewrite sort_by_perm in Hy. by apply Hall.
Qed.

Lemma insert_by_snd x (L : list (nat * A)) :
  (insert_by tagged_le x L).*2 = insert_by le (snd x) (L.*2).
Proof.
  induction L as [|y L IH]; csimpl; [done|]. unfold tagged_le at 1.
  destruct (le (snd x) (snd y)); csimpl; [done|]. by rewrite IH.
Qed.

Lemma sort_by_snd (L : list (nat * A)) :
  (sort_by tagged_le L).*2 = sort_by le (L.*2).
Proof.
  induction L as [|x L IH]; [done|].
  change (sort_by tagged_le (x :: L))
    with (insert_by tagged_le x (sort_by tagged_le L)).
  rewrite insert_by_snd, IH. done.
Qed.

Lemma imap_pair_from (l : list A) (n : nat) :
  (imap (fun i => pair (n + i)%nat) l).*2 = l
  /\ (imap (fun i => pair (n + i)%nat) l).*1 = seq n (length l)
  /\ StronglySorted (fun a b => (fst a < fst b)%nat)
       (imap (fun i => pair (n + i)%nat) l).
Proof.
  revert n. induction l as [|x l IH]; intros n.
  - repeat split; constructor.
  - rewrite imap_cons.
    assert (imap ((fun i => pair (n + i)%nat) ∘ S) l
            = imap (fun i => pair (S n + i)%nat) l) as ->.
    { apply imap_ext. intros i y _. simpl. f_equal. lia. }
    destruct (IH (S n)) as (H2 & H1 & Hs).
    rewrite !fmap_cons, H2, H1, Nat.add_0_r. split; [done|]. split; [done|].
    constructor; [done|]. rewrite Forall_forall. intros [j y] Hin. simpl.
    apply (list_elem_of_fmap_2 fst) in Hin. rewrite H1 in Hin. simpl in Hin.
    apply elem_of_seq in Hin. lia.
Qed.

(** The stable order of [l]: a permutation [order] of its positions such
    that position [k] of the sorted list holds the element at [order !! k],
    and positions are arranged by [before]. *)
Lemma stable_order_perm (l : list A) :
  stable_order le l ≡ₚ seq 0 (length l).
Proof.
  unfold stable_order. rewrite sort_by_perm.
  destruct (imap_pair_from l 0) as (_ & H & _).
  by assert ((imap pair l).*1 = seq 0 (length l)) as -> by exact H.
Qed.

Lemma sort_by_stable (l : list A) :
  let order := stable_order le l in
    order ≡ₚ seq 0 (length l)
    /\ (forall k a, order !! k = Some a -> sort_by le l !! k = l !! a)
    /\ (forall i j a b x y,
           (i < j)%nat -> order !! i = Some a -> order !! j = Some b ->
           l !! a = Some x -> l !! b = Some y -> before (a, x) (b, y)).
Proof.
  destruct (imap_pair_from l 0) as (H2 & H1 & Hs). simpl in *.
  set (L := imap pair l) in *.
  assert (forall k a x, sort_by tagged_le L !! k = Some (a, x) ->
                        l !! a = Some x) as Hfrom.
  { intros k a x Hk. apply list_elem_of_lookup_2 in Hk.
    rewrite sort_by_perm in Hk. apply list_elem_of_lookup_1 in Hk as [i Hi].
    unfold L in Hi. apply list_lookup_imap_Some in Hi as (y & Hy & [= -> ->]).
    done. }
  unfold stable_order. fold L. split; [|split].
  - by rewrite sort_by_perm, H1.
  - intros k a Hk. rewrite <- H2 at 1. rewrite <- sort_by_snd.
    rewrite list_lookup_fmap in Hk. rewrite list_lookup_fmap.
    destruct (sort_by tagged_le L !! k) as [[a' x]|] eqn:E; [|done].
    simpl in *. injection Hk as ->. symmetry. by eapply Hfrom.
  - intros i j a b x y Hij Hi Hj Hx Hy.
    rewrite list_lookup_fmap in Hi, Hj.
    destruct (sort_by tagged_le L !! i) as [[a' x']|] eqn:Ei; [|done].
    destruct (sort_by tagged_le L !! j) as [[b' y']|] eqn:Ej; [|done].
    simpl in *. injection Hi as ->. injection Hj as ->.
    pose proof (Hfrom _ _ _ Ei) as Hx'. pose proof (Hfrom _ _ _ Ej) as Hy'.
    assert (x' = x) as -> by congruence. assert (y' = y) as -> by congruence.
    eapply StronglySorted_lookup; [by apply sort_tagged_sorted| |done..]. done.
Qed.
End StableSortOrder.

(** ** Ranking (lines 422-429, 581-587, 742-747) *)

Lemma slice_prefix {A} (l : list A) (limit : Z) :
  (0 <= limit)%Z ->
  slice l 0 limit = take (Z.to_nat (Z.min limit (Z.of_nat (length l)))) l.
Proof.
  intros Hl. unfold slice, clamp.
  destruct (Z.ltb_spec limit 0); [lia|]. simpl.
  rewrite (Z.min_l 0) by lia. simpl. by rewrite Nat.sub_0_r.
Qed.

Lemma assign_ranks_lookup (s : Z) (l : list Recommendation) (k : nat) :
  assign_ranks s l !! k = set_rank (s + Z.of_nat k + 1) <$> l !! k.
Proof.
  revert s k. induction l as [|r l IH]; intros s k; [done|].
  destruct k as [|k]; simpl.
  - f_equal. f_equal. lia.
  - rewrite IH. do 2 f_equal. lia.
Qed.

Lemma length_assign_ranks s l : length (assign_ranks s l) = length l.
Proof. revert s. induction l; intros s; simpl; [done|]. by rewrite IHl. Qed.

Lemma rank_and_truncate_ranked (recs : list Recommendation) (limit : Z) :
  (0 <= limit)%Z -> ranked recs limit (rank_and_truncate limit recs).
Proof.
  intros Hlimit. unfold rank_and_truncate, sort_desc.
  set (le := fun x y : Recommendation =>
               Qle_bool (relevance_score y) (relevance_score x)).
  assert (forall x y, le x y = true \/ le y x = true) as Htotal.
  { intros x y. unfold le. rewrite !Qle_bool_iff.
    destruct (Qlt_le_dec (relevance_score x) (relevance_score y));
      [right; by apply Qlt_le_weak | by left]. }
  assert (forall x y z, le x y = true -> le y z = true -> le x z = true)
    as Htrans.
  { intros x y z. unfold le. rewrite !Qle_bool_iff. intros; by eapply Qle_trans. }
  destruct (sort_by_stable le Htotal Htrans recs) as (Hperm & Hat & Hord).
  set (order := stable_order le recs) in *.
  set (sorted := sort_by le recs) in *.
  assert (length sorted = length recs) as Hlen.
  { unfold sorted. by rewrite sort_by_perm. }
  rewrite slice_prefix by done. rewrite Hlen.
  set (n := Z.to_nat (Z.min limit (Z.of_nat (length recs)))).
  assert (forall k r, assign_ranks 0 (take n sorted) !! k = Some r ->
            exists a r0, order !! k = Some a /\ recs !! a = Some r0
                         /\ sorted !! k = Some r0
                         /\ r = set_rank (Z.of_nat k + 1) r0) as Hout.
  { intros k r Hk. rewrite assign_ranks_lookup in Hk.
    apply fmap_Some in Hk as (r0 & Hr0 & ->).
    apply lookup_take_Some in Hr0 as [Hr0 _].
    assert (k < length order)%nat as Hko.
    { rewrite Hperm, length_seq, <- Hlen. by eapply lookup_lt_Some. }
    apply lookup_lt_is_Some in Hko as [a Ha].
    exists a, r0. rewrite <- (Hat k a Ha). by rewrite Z.add_0_l. }
  assert (forall i j a b ra rb,
            (i < j)%nat -> order !! i = Some a -> order !! j = Some b ->
            recs !! a = Some ra -> recs !! b = Some rb ->
            relevance_score rb < relevance_score ra
            \/ (relevance_score ra == relevance_score rb /\ (a < b)%nat))
    as Hord'.
  { intros i j a b ra rb Hij Hi Hj Ha Hb.
    destruct (Hord i j a b ra rb Hij Hi Hj Ha Hb) as [H1 H2].
    unfold le in H1, H2. simpl in *. rewrite Qle_bool_iff in H1, H2.
    destruct (Qlt_le_dec (relevance_score rb) (relevance_score ra)) as [|Hle];
      [by left|right].
    split; [by apply Qle_antisym | by apply H2]. }
  split; [|split; [|split]].
  - rewrite length_assign_ranks, length_take. lia.
  - intros k r Hk. by destruct (Hout k r Hk) as (a & r0 & _ & _ & _ & ->).
  - intros k r r' Hk Hk'.
    destruct (Hout k r Hk) as (a & r0 & Ha & Hr0 & _ & ->).
    destruct (Hout _ r' Hk') as (b & r1 & Hb & Hr1 & _ & ->). simpl.
    destruct (Hord' k (S k) a b r0 r1) as [H|[H _]]; [lia|done..| |].
    + by apply Qlt_le_weak.
    + rewrite H. apply Qle_refl.
  - exists order. split; [done|]. split; [|done].
    intros k r Hk. destruct (Hout k r Hk) as (a & r0 & ? & ? & _ & ?).
    by exists a, r0.
Qed.

(** A loop that appends one dict per element. *)
Lemma for_each_collect {A B} (P : A -> B -> Prop)
    (body : list B -> A -> result (list B)) (l : list A) (acc res : list B) :
  (forall acc x acc', body acc x = Ok acc' ->
                      exists y, acc' = acc ++ [y] /\ P x y) ->
  for_each body l acc = Ok res ->
  exists ys, res = acc ++ ys /\ Forall2 P l ys.
Proof.
  intros Hbody. revert acc. induction l as [|x l IH]; intros acc H; simpl in H.
  - injection H as <-. exists []. by rewrite app_nil_r.
  - destruct (body acc x) as [acc'|e] eqn:E; [|done]. simpl in H.
    destruct (Hbody _ _ _ E) as (y & -> & Hy).
    destruct (IH _ H) as (ys & -> & Hys).
    exists (y :: ys). rewrite <- app_assoc. split; [done|]. by constructor.
Qed.

Lemma Forall2_subject {A} (f : A -> string) (l : list A)
    (ys : list Recommendation) :
  Forall2 (fun x y => subject_id y = f x) l ys -> subject_id <$> ys = f <$> l.
Proof. induction 1; csimpl; [done|]. by f_equal. Qed.

(** C7: for a limit that is not negative, each of the three [generate]
    functions returns the ranking of its candidates cut at the limit: the
    list goes by descending relevance score, candidates with equal scores
    keep their input order, it has min(limit, candidate count) entries, and
    their rank positions are 1, 2, ... in that order. *)
Theorem ranking_correct (limit : Z) :
  (0 <= limit)%Z ->
  (forall self now developer_id profile candidates hybrid_weights out,
      Proj.generate_project_recommendations self now developer_id profile
        candidates limit hybrid_weights = Ok out ->
      exists recs, subject_id <$> recs = id <$> candidates
                   /\ ranked recs limit out)
  /\ (forall self project candidates out,
        Talent.generate_talent_recommendations self project candidates limit
        = Ok out ->
        exists recs, subject_id <$> recs = user_id <$> candidates
                     /\ ranked recs limit out)
  /\ (forall self profile,
        exists recs, subject_id <$> recs = id <$> Cold.popular_projects self
                     /\ ranked recs limit
                          (Cold.get_cold_start_project_recommendations self
                             profile limit)).
Proof.
  intros Hlimit. split; [|split].
  - intros self now developer_id profile candidates hw out H.
    unfold Proj.generate_project_recommendations in H.
    bind_ok H. bind_ok H. bind_ok H. injection H as <-.
    apply (for_each_collect (fun x y => subject_id y = id x)) in E1
      as (recs & -> & Hrecs).
    + exists recs. split; [by apply Forall2_subject|].
      by apply rank_and_truncate_ranked.
    + intros acc x acc' Hb. bind_ok Hb. bind_ok Hb. injection Hb as <-.
      by eexists.
  - intros self project candidates out H.
    unfold Talent.generate_talent_recommendations in H.
    bind_ok H. injection H as <-.
    apply (for_each_collect (fun x y => subject_id y = user_id x)) in E
      as (recs & -> & Hrecs).
    + exists recs. split; [by apply Forall2_subject|].
      by apply rank_and_truncate_ranked.
    + intros acc x acc' Hb. bind_ok Hb. injection Hb as <-. by eexists.
  - intros self profile. eexists. split; [|by apply rank_and_truncate_ranked].
    rewrite <- list_fmap_compose. done.
Qed.

(** Two developers tie below a third; the limit 2 keeps the third and the
    first of the tied pair. *)
Lemma ranking_correct_witness :
  exists out,
    Talent.generate_talent_recommendations (Talent.init "20250101")
      project_python_react_aws three_developers 2 = Ok out
    /\ subject_id <$> out = ["dev-c"; "dev-a"]
    /\ exists recs, subject_id <$> recs = user_id <$> three_developers
                    /\ ranked recs 2 out.
Proof.
  destruct (Talent.generate_talent_recommendations (Talent.init "20250101")
              project_python_react_aws three_developers 2) as [out|e] eqn:E.
  - exists out. split; [reflexivity|]. split.
    + vm_compute in E. injection E as <-. reflexivity.
    + destruct (ranking_correct 2 ltac:(lia)) as (_ & H & _).
      exact (H _ _ _ _ E).
  - vm_compute in E. discriminate E.
Defined.

(** ** Collaborative scoring (lines 94-145) *)

Lemma argsort_perm (v : list Q) : argsort v ≡ₚ seq 0 (length v).
Proof. apply stable_order_perm. Qed.

Lemma similar_users_in_range (row : list Q) (k : Z) (n : nat) :
  n ∈ Proj.similar_users row k -> (n < length row)%nat.
Proof.
  unfold Proj.similar_users. intros H%elem_of_slice.
  rewrite elem_of_reverse, argsort_perm, elem_of_seq in H. lia.
Qed.

Lemma Qsum_nonneg (l : list Q) : Forall (fun s => 0 <= s) l -> 0 <= Qsum l.
Proof.
  induction 1 as [|x l Hx _ IH]; simpl; [apply Qle_refl|].
  rewrite <- (Qplus_0_l 0). by apply Qplus_le_compat.
Qed.

Section Neighbours.
Context (self : Proj.engine) (row : list Q) (matrix : list (list Z)).
Context (Hok : consistent self row matrix).
Context (j : nat) (Hj : Forall (fun r => (j < length r)%nat) matrix).

#[local] Abbreviation sim := (similarity_of row).
#[local] Abbreviation interaction := (interaction_of matrix j).

Lemma at_index_row n : (n < length row)%nat -> Proj.at_index row n = Ok (sim n).
Proof.
  intros [s Hs]%lookup_lt_is_Some. unfold Proj.at_index, similarity_of. by rewrite Hs.
Qed.

Lemma iloc_interaction n :
  (n < length row)%nat ->
  Proj.iloc self n j = Ok (interaction n) /\ (0 <= interaction n)%Z.
Proof.
  destruct Hok as (Hm & Hlen & _ & _ & Hpos). intros Hn.
  rewrite Hlen in Hn. apply lookup_lt_is_Some in Hn as [r Hr].
  rewrite Forall_forall in Hj.
  pose proof (Hj r (list_elem_of_lookup_2 _ _ _ Hr)) as Hjr.
  apply lookup_lt_is_Some in Hjr as [z Hz].
  unfold Proj.iloc, Proj.at_index, interaction_of. rewrite Hm. simpl.
  rewrite Hr. simpl. rewrite Hz. simpl. split; [done|].
  rewrite Forall_forall in Hpos.
  pose proof (Hpos r (list_elem_of_lookup_2 _ _ _ Hr)) as Hr'.
  rewrite Forall_forall in Hr'. apply Hr'. by eapply list_elem_of_lookup_2.
Qed.

Lemma visit_neighbour_spec (acc : Q * Q) (n : nat) :
  (n < length row)%nat ->
  Proj.visit_neighbour self row j acc n
  = Ok (if (0 <? interaction n)%Z
        then (fst acc + sim n * inject_Z (interaction n), snd acc + sim n)
        else acc)
  /\ (0 <= interaction n)%Z.
Proof.
  intros Hn. unfold Proj.visit_neighbour. rewrite (at_index_row n Hn).
  destruct (iloc_interaction n Hn) as [-> Hpos]. simpl.
  split; [|done]. by destruct (0 <? interaction n)%Z.
Qed.

Lemma neighbour_sums_spec (ns : list nat) (acc : Q * Q) :
  Forall (fun n => (n < length row)%nat) ns ->
  exists num den,
    for_each (Proj.visit_neighbour self row j) ns acc = Ok (num, den)
    /\ num == fst acc
              + Qsum ((fun n => sim n * inject_Z (interaction n))
                        <$> filter (fun n => interaction n <> 0%Z) ns)
    /\ den == snd acc
              + Qsum (sim <$> filter (fun n => interaction n <> 0%Z) ns).
Proof.
  intros Hns. revert acc. induction Hns as [|n ns Hn _ IH]; intros acc.
  - exists (fst acc), (snd acc). simpl. split; [by destruct acc|].
    split; ring.
  - cbn [for_each]. destruct (visit_neighbour_spec acc n Hn) as [-> Hpos].
    cbn [mbind result_bind bind].
    destruct (Z.ltb_spec 0 (interaction n)) as [Hlt|Hge].
    + destruct (IH (fst acc + sim n * inject_Z (interaction n),
                    snd acc + sim n)) as (num & den & -> & Hnum & Hden).
      exists num, den. split; [done|].
      rewrite filter_cons_True by lia. csimpl. cbn [fst snd] in *.
      rewrite Hnum, Hden. split; ring.
    + destruct (IH acc) as (num & den & -> & Hnum & Hden).
      exists num, den. split; [done|].
      rewrite filter_cons_False by lia. done.
Qed.
End Neighbours.

Lemma py_min_proper a a' b b' :
  a == a' -> b == b' -> Py.min a b == Py.min a' b'.
Proof.
  intros Ha Hb. unfold Py.min, Qltb.
  rewrite (Qcompare_comp _ _ Hb _ _ Ha). by destruct (_ ?= _).
Qed.

Lemma collaborative_score_spec (self : Proj.engine) (row : list Q)
    (matrix : list (list Z)) (ns : list nat) (c : string) :
  consistent self row matrix ->
  Forall (fun n => (n < length row)%nat) ns ->
  exists q,
    Proj.collaborative_score self row ns c = Ok q
    /\ q == match Proj.item_index self !! c with
            | None => 0.5
            | Some j =>
                neighbour_average (similarity_of row) (interaction_of matrix j)
                  ns
            end.
Proof.
  intros Hok Hns. unfold Proj.collaborative_score.
  destruct (Proj.item_index self !! c) as [j|] eqn:Hc; [|by exists 0.5].
  assert (Forall (fun r => (j < length r)%nat) matrix) as Hj.
  { destruct Hok as (_ & _ & H & _). by eapply H. }
  unfold Proj.neighbour_sums.
  destruct (neighbour_sums_spec self row matrix Hok j Hj ns (0, 0) Hns)
    as (num & den & -> & Hnum & Hden).
  cbn [mbind result_bind bind fst snd] in *.
  rewrite Qplus_0_l in Hnum, Hden.
  unfold neighbour_average.
  set (active := filter (fun n => interaction_of matrix j n <> 0%Z) ns) in *.
  assert (0 <= den) as Hpos.
  { rewrite Hden. apply Qsum_nonneg. apply Forall_fmap, Forall_forall.
    intros n _. unfold compose, similarity_of.
    destruct (row !! n) as [s|] eqn:Hs; simpl; [|done].
    destruct Hok as (_ & _ & _ & Hrow & _). rewrite Forall_forall in Hrow.
    apply Hrow. by eapply list_elem_of_lookup_2. }
  destruct (Qltb 0 den) eqn:Hlt.
  - apply Qltb_lt in Hlt. eexists. split; [done|].
    destruct (Qeq_bool _ 0) eqn:Hz.
    + apply Qeq_bool_iff in Hz. rewrite <- Hden in Hz. rewrite Hz in Hlt.
      by apply Qlt_irrefl in Hlt.
    + apply py_min_proper; [|done]. by rewrite Hnum, Hden.
  - apply Qltb_ge in Hlt. exists 0.5. split; [done|].
    assert (den == 0) as Hz by (by apply Qle_antisym).
    rewrite Hden in Hz. apply Qeq_bool_iff in Hz. by rewrite Hz.
Qed.

(** The loop over the candidates leaves, at every candidate, the score of
    that candidate, and leaves every other key alone. *)
Lemma score_loop_spec (score : string -> result Q) (l : list string)
    (m0 : gmap string Q) :
  (forall p, p ∈ l -> exists q, score p = Ok q) ->
  exists m,
    for_each (fun scores project_id =>
                s ← score project_id; Ok (<[project_id := s]> scores)) l m0
    = Ok m
    /\ (forall c, c ∈ l -> exists q, score c = Ok q /\ m !! c = Some q)
    /\ (forall c, c ∉ l -> m !! c = m0 !! c).
Proof.
  revert m0. induction l as [|x l IH]; intros m0 Hl.
  - exists m0. split; [done|]. split; [|done].
    intros c Hc. by apply elem_of_nil in Hc.
  - destruct (Hl x) as [qx Hx]; [left|].
    destruct (IH (<[x := qx]> m0)) as (m & Hm & Hat & Hother).
    { intros p Hp. apply Hl. by right. }
    exists m. cbn [for_each]. rewrite Hx. cbn [mbind result_bind bind].
    split; [done|]. split.
    + intros c Hc.
      destruct (decide (c ∈ l)) as [Hin|Hout]; [by apply Hat|].
      apply elem_of_cons in Hc as [->|Hc]; [|done].
      exists qx. split; [done|]. by rewrite Hother, lookup_insert_eq.
    + intros c Hc. apply not_elem_of_cons in Hc as [Hne Hc].
      by rewrite Hother, lookup_insert_ne.
Qed.

Lemma neutral_scores_spec (l : list string) (m0 : gmap string Q) (c : string) :
  foldl (fun scores project_id => <[project_id := 0.5]> scores) m0 l !! c
  = if decide (c ∈ l) then Some 0.5 else m0 !! c.
Proof.
  revert m0. induction l as [|x l IH]; intros m0; simpl; [done|].
  rewrite IH. destruct (decide (c ∈ l)) as [Hin|Hout].
  - rewrite decide_True; [done|by right].
  - destruct (decide (c = x)) as [->|Hne].
    + rewrite lookup_insert_eq. rewrite decide_True; [done|left].
    + rewrite lookup_insert_ne by done. rewrite decide_False; [done|].
      by intros [?|?]%elem_of_cons.
Qed.



(** ** Neighbour selection (lines 114-116) *)

Lemma Qle_bool_total x y : Qle_bool x y = true \/ Qle_bool y x = true.
Proof.
  rewrite !Qle_bool_iff.
  destruct (Qlt_le_dec x y); [left; by apply Qlt_le_weak | by right].
Qed.

Lemma Qle_bool_trans x y z :
  Qle_bool x y = true -> Qle_bool y z = true -> Qle_bool x z = true.
Proof. rewrite !Qle_bool_iff. apply Qle_trans. Qed.

(** When the target's own similarity is strictly the largest entry of its
    row, [argsort] puts the target last, the reversal puts it first, and
    the slice from position 1 leaves it out. *)
Lemma similar_users_excludes_strict_max (row : list Q) (u : nat) (k : Z) :
  (u < length row)%nat ->
  (forall n s su, n <> u -> row !! n = Some s -> row !! u = Some su -> s < su) ->
  u ∉ Proj.similar_users row k.
Proof.
  intros Hu Hmax Hin.
  destruct (sort_by_stable Qle_bool Qle_bool_total Qle_bool_trans row)
    as (Hperm & _ & Hord).
  fold (argsort row) in Hperm, Hord. set (order := argsort row) in *.
  assert (NoDup order) as Hnd by (rewrite Hperm; apply NoDup_seq).
  assert (length order = length row) as Hlen by (by rewrite Hperm, length_seq).
  assert (u ∈ order) as Huo by (rewrite Hperm, elem_of_seq; lia).
  apply list_elem_of_lookup_1 in Huo as [i Hi].
  apply lookup_lt_is_Some in Hu as [su Hsu].
  assert (S i = length order) as Hlast.
  { destruct (decide (S i < length order)%nat) as [Hlt|]; 
      [|apply lookup_lt_Some in Hi; lia].
    apply lookup_lt_is_Some in Hlt as [b Hb].
    assert (b <> u) as Hne.
    { intros ->. pose proof (NoDup_lookup _ _ _ _ Hnd Hi Hb). lia. }
    assert (b < length row)%nat as Hbl.
    { apply list_elem_of_lookup_2 in Hb. rewrite Hperm, elem_of_seq in Hb. lia. }
    apply lookup_lt_is_Some in Hbl as [sb Hsb].
    destruct (Hord i (S i) u b su sb ltac:(lia) Hi Hb Hsu Hsb) as [Hle _].
    simpl in Hle. apply Qle_bool_iff in Hle.
    pose proof (Hmax b sb su Hne Hsb Hsu) as Hlt'.
    exfalso. by apply (Qlt_not_le _ _ Hlt'). }
  unfold Proj.similar_users in Hin. fold order in Hin.
  unfold slice in Hin. apply elem_of_take in Hin as (m & Hm & _).
  rewrite lookup_drop in Hm.
  assert (clamp (length (reverse order)) 1 = 1%nat) as Hc.
  { unfold clamp. rewrite length_reverse. simpl. lia. }
  rewrite Hc in Hm.
  assert (reverse order !! 0%nat = Some u) as H0.
  { rewrite reverse_lookup by lia. rewrite <- Hi. f_equal. lia. }
  assert (NoDup (reverse order)) as Hndr by (by rewrite reverse_Permutation).
  pose proof (NoDup_lookup _ _ _ _ Hndr H0 Hm). lia.
Qed.

(** C6: two users with the same interactions have similarity 1.0 to each
    other.  For the first of them the neighbour list is the user's own
    index: the slice drops the other user, whom the reversed [argsort] puts
    first, and the score of the project is computed from the target's own
    interaction. *)
Theorem twin_user_is_own_neighbour :
  Proj.similarity_model twin_engine = Some twin_similarity
  /\ Proj.user_index twin_engine !! "u0" = Some 0%nat
  /\ Proj.user_index twin_engine !! "u1" = Some 1%nat
  /\ twin_similarity !! 0%nat = Some [1; 1]
  /\ Proj.similar_users [1; 1] 50 = [0%nat]
  /\ (exists scores,
         Proj.calculate_collaborative_scores twin_engine "u0" ["p"] 50
         = Ok scores /\ scores !! "p" = Some 0.1).
Proof.
  repeat split; try (by vm_compute).
  eexists. split; by vm_compute.
Qed.

(** Whatever order a sort gives the two tied indices, the slice keeps
    exactly one of them, and that one is the neighbour list of both users:
    one of the two is its own neighbour. *)
Lemma twin_neighbour_any_tie_break (order : list nat) :
  order ≡ₚ [0; 1]%nat ->
  exists u, u ∈ [0; 1]%nat /\ slice (reverse order) 1 (50 + 1) = [u].
Proof.
  intros Hperm. symmetry in Hperm.
  apply Permutation_length_2_inv in Hperm as [-> | ->].
  - exists 0%nat. split; [left|reflexivity].
  - exists 1%nat. split; [right; left|reflexivity].
Qed.

(** * Further properties

    The rest of the engine and the model endpoints: what each function
    returns on the inputs it accepts, when it raises, and what it leaves
    behind. *)

(** ** Rounding keeps integer bounds *)

Lemma round_half_even_bounds (a b : Z) (x : Q) :
  inject_Z a <= x <= inject_Z b ->
  (a <= round_half_even x <= b)%Z.
Proof.
  intros [Ha Hb]. unfold round_half_even.
  assert (a <= Qfloor x)%Z as Hfa.
  { rewrite <- (Qfloor_Z a). by apply Qfloor_resp_le. }
  assert (Qfloor x <= b)%Z as Hfb.
  { rewrite <- (Qfloor_Z b). by apply Qfloor_resp_le. }
  assert (1 # 2 <= x - inject_Z (Qfloor x) -> (Qfloor x + 1 <= b)%Z) as Hup.
  { intros Hhalf.
    assert (inject_Z (Qfloor x) < inject_Z b) as Hlt.
    { apply Qlt_le_trans with x; [|done].
      apply Qlt_le_trans with (inject_Z (Qfloor x) + (1 # 2)); lra. }
    rewrite <- Zlt_Qlt in Hlt. lia. }
  destruct (Qcompare_spec (x - inject_Z (Qfloor x)) (1 # 2)) as [He|Hl|Hg].
  - destruct (Z.even (Qfloor x)); [lia|]. split; [lia|]. apply Hup. lra.
  - lia.
  - split; [lia|]. apply Hup. lra.
Qed.

Lemma round4_unit (q : Q) : 0 <= q <= 1 -> 0 <= round4 q <= 1.
Proof.
  intros [H0 H1]. unfold round4. rewrite Qred_correct.
  destruct (round_half_even_bounds 0 10000 (q * 10000)) as [Hlo Hhi].
  { unfold inject_Z. split; lra. }
  unfold Qle. simpl. lia.
Qed.

(** ** [min] and [max] *)

Lemma py_max_spec a b : (Py.max a b == a \/ Py.max a b == b) /\ a <= Py.max a b /\ b <= Py.max a b.
Proof.
  unfold Py.max. destruct (Qltb a b) eqn:E.
  - apply Qltb_lt in E. split; [by right|]. split; lra.
  - apply Qltb_ge in E. split; [by left|]. split; lra.
Qed.

Lemma py_min_spec a b : (Py.min a b == a \/ Py.min a b == b) /\ Py.min a b <= a /\ Py.min a b <= b.
Proof.
  unfold Py.min. destruct (Qltb b a) eqn:E.
  - apply Qltb_lt in E. split; [by right|]. split; lra.
  - apply Qltb_ge in E. split; [by left|]. split; lra.
Qed.

(** ** Experience fit (lines 226-248 and 589-603) *)

(** X1: the experience fit is 1.0, 0.7 or 0.4 and nothing else; it is 1.0
    exactly when the two ordinals coincide and 0.4 exactly when they are two
    or more apart, a level or complexity outside the tables counting as
    2 (mid, medium).  The developers-for-project engine computes the same
    value. *)
Theorem experience_fit_values (developer_level project_complexity : string) :
  let fit :=
    Proj._calculate_experience_fit developer_level project_complexity in
  (fit = 1 \/ fit = 0.7 \/ fit = 0.4)
  /\ Talent._calculate_experience_fit developer_level project_complexity = fit
  /\ (fit = 1 <->
      default 2%Z (Proj.level_map !! developer_level)
      = default 2%Z (Proj.complexity_map !! project_complexity))
  /\ (fit = 0.4 <->
      (2 <= Z.abs (default 2 (Proj.level_map !! developer_level)
                   - default 2 (Proj.complexity_map !! project_complexity)))%Z).
Proof.
  intros fit. subst fit. unfold Proj._calculate_experience_fit.
  split; [|split; [reflexivity|]].
  - repeat case_match; auto.
  - set (d := default 2%Z (Proj.level_map !! developer_level)).
    set (c := default 2%Z (Proj.complexity_map !! project_complexity)).
    destruct (Z.eqb_spec (Z.abs (d - c)) 0) as [H0|H0].
    { split; split; intros H; try done; try lia. }
    destruct (Z.eqb_spec (Z.abs (d - c)) 1) as [H1|H1].
    { split; split; intros H; try done; try lia. }
    split; split; intros H; try done; try lia.
Qed.

(** ** Recency (lines 290-314) *)

(** X2: the recency score never rises as the clock advances, stays
    between 0.7 and 1.0, is 0.7 without a timestamp, and is 1.0 for every
    project less than seven days old, a timestamp in the future included. *)
Theorem recency_monotone (now1 now2 created : Z) :
  (now1 <= now2)%Z ->
  Proj._calculate_recency_score now2 (Some created)
  <= Proj._calculate_recency_score now1 (Some created)
  /\ 0.7 <= Proj._calculate_recency_score now2 (Some created) <= 1
  /\ Proj._calculate_recency_score now2 None = 0.7
  /\ ((now1 < created + 7 * Proj.microseconds_per_day)%Z ->
      Proj._calculate_recency_score now1 (Some created) = 1).
Proof.
  intros Hle. unfold Proj._calculate_recency_score.
  assert (0 < Proj.microseconds_per_day)%Z as Hday by done.
  pose proof (Z.div_le_mono (now1 - created) (now2 - created) _ Hday
                ltac:(lia)) as Hmono.
  set (d1 := ((now1 - created) / Proj.microseconds_per_day)%Z) in *.
  set (d2 := ((now2 - created) / Proj.microseconds_per_day)%Z) in *.
  split; [|split; [|split; [done|]]].
  - repeat (match goal with |- context [(?a <? ?b)%Z] =>
                          destruct (Z.ltb_spec a b) end);
      try lia; by vm_compute.
  - repeat (match goal with |- context [(?a <? ?b)%Z] =>
                          destruct (Z.ltb_spec a b) end);
      split; by vm_compute.
  - intros Hfresh.
    assert (d1 < 7)%Z as Hd.
    { unfold d1. apply Z.div_lt_upper_bound; lia. }
    by destruct (Z.ltb_spec d1 7); [|lia].
Qed.

Lemma recency_monotone_witness :
  Proj._calculate_recency_score (40 * Proj.microseconds_per_day) (Some 0%Z)
  <= Proj._calculate_recency_score 0 (Some 0%Z).
Proof.
  apply (recency_monotone 0 (40 * Proj.microseconds_per_day) 0). by vm_compute.
Defined.

(** ** Preference match (lines 316-354) *)

(** X3: the preference match lies in [0, 1]; it is the neutral 0.5 when no
    dimension is specified on both sides; and a remote preference of
    "hybrid" or "no_preference" is satisfied by remote and on-site projects
    alike. *)
Theorem preference_match_unit (preferences : Preferences) (project : Project) :
  0 <= Proj._calculate_preference_match preferences project <= 1
  /\ ((project_types preferences = None \/ project_type project = None) ->
      (remote_preference preferences = None \/ is_remote project = None) ->
      (industries preferences = None \/ industry project = None) ->
      Proj._calculate_preference_match preferences project = 0.5)
  /\ (forall is_remote_flag,
        project_types preferences = None -> industries preferences = None ->
        remote_preference preferences = Some "hybrid"
        \/ remote_preference preferences = Some "no_preference" ->
        is_remote project = Some is_remote_flag ->
        Proj._calculate_preference_match preferences project == 1).
Proof.
  unfold Proj._calculate_preference_match.
  split; [|split].
  - destruct (project_types preferences) as [types|],
             (project_type project) as [type|],
             (remote_preference preferences) as [pref|],
             (is_remote project) as [remote|],
             (industries preferences) as [inds|],
             (industry project) as [ind|];
      repeat match goal with
             | |- context [if ?b then _ else _] =>
                 match b with
                 | (0 <? _)%Z => fail 1
                 | _ => destruct b
                 end
             end;
      cbn -[Qle]; (by vm_compute) || (split; by vm_compute).
  - intros [-> | ->] [-> | ->] [-> | ->]; repeat case_match; simplify_eq; done.
  - intros flag -> -> [-> | ->] ->; simpl; by destruct flag.
Qed.

Lemma preference_match_unit_witness :
  Proj._calculate_preference_match hybrid_preferences on_site_project == 1.
Proof.
  destruct (preference_match_unit hybrid_preferences on_site_project)
    as (_ & _ & H).
  apply (H false); [reflexivity | reflexivity | by left | reflexivity].
Defined.

(** ** Budget alignment, the remaining branches (lines 250-288, 605-619) *)

Lemma div_zero a b : b == 0 -> div a b = Raise ZeroDivisionError.
Proof. intros Hb%Qeq_bool_iff. unfold div. by rewrite Hb. Qed.

Lemma above_max_score (r bmax : Q) :
  0 < r -> bmax < r -> 0.2 <= Py.max (bmax / r * 0.6) 0.2 <= 1.
Proof.
  intros Hr Hlt. destruct (py_max_spec (bmax / r * 0.6) 0.2) as ([H|H] & H1 & H2).
  - split; [done|]. rewrite H.
    assert (bmax / r <= 1) as Hratio.
    { apply Qle_shift_div_r; lra. }
    lra.
  - rewrite H. split; lra.
Qed.

Lemma unit_position (r bmin bmax : Q) :
  bmin <= r <= bmax -> ~ bmax - bmin == 0 ->
  0 <= (r - bmin) / (bmax - bmin) <= 1.
Proof.
  intros [Hlo Hhi] Hnz.
  assert (0 < bmax - bmin) as Hd.
  { destruct (Qlt_le_dec 0 (bmax - bmin)); [done|]. exfalso. apply Hnz. lra. }
  split; [apply Qle_shift_div_l | apply Qle_shift_div_r]; lra.
Qed.

Lemma position_score_range p : 0 <= p <= 1 -> 0.8 <= 1 - Qabs (0.5 - p) * 0.4 <= 1.
Proof. intros [H0 H1]. apply Qabs_case; intros; split; lra. Qed.

(** X4: for a positive rate and a budget without a "fixed" key, the
    projects-for-developer scorer raises ZeroDivisionError exactly when
    min = max = rate (with "max" present); in every other case it returns a
    score between 0.2 and 1.0. *)
Theorem project_range_budget_total (hourly_rate : Q) (budget_range : gmap string Q) :
  0 < hourly_rate -> budget_range !! "fixed" = None ->
  let degenerate :=
    exists bmax, budget_range !! "max" = Some bmax
                 /\ default 0 (budget_range !! "min") == hourly_rate
                 /\ bmax == hourly_rate in
  (degenerate ->
   Proj._calculate_budget_alignment hourly_rate budget_range
   = Raise ZeroDivisionError)
  /\ (~ degenerate ->
      exists q, Proj._calculate_budget_alignment hourly_rate budget_range = Ok q
                /\ 0.2 <= q <= 1).
Proof.
  intros Hr Hfixed degenerate. subst degenerate.
  unfold Proj._calculate_budget_alignment. rewrite Hfixed.
  set (bmin := default 0 (budget_range !! "min")).
  split.
  - intros (bmax & Hmax & Hmin & Hbmax).
    destruct (decide _) as [Hsz|_].
    { apply map_size_empty_iff in Hsz. by rewrite Hsz in Hmax. }
    rewrite Hmax. cbn [Proj.le_max].
    assert (Qle_bool bmin hourly_rate = true) as -> by (apply Qle_bool_iff; lra).
    assert (Qle_bool hourly_rate bmax = true) as -> by (apply Qle_bool_iff; lra).
    cbn [andb]. rewrite div_zero; [done|lra].
  - intros Hnd. destruct (decide _) as [_|_]; [exists 0.5; split; [done|split; lra]|].
    destruct (Qle_bool bmin hourly_rate) eqn:Hlo; cbn [andb].
    + apply Qle_bool_iff in Hlo.
      destruct (budget_range !! "max") as [bmax|] eqn:Hmax; cbn [Proj.le_max].
      * destruct (Qle_bool hourly_rate bmax) eqn:Hhi.
        -- apply Qle_bool_iff in Hhi.
           assert (~ bmax - bmin == 0) as Hnz.
           { intros Hz. apply Hnd. exists bmax. split; [done|]. split; lra. }
           rewrite div_nonzero by done. cbn [mbind result_bind bind].
           eexists. split; [done|].
           pose proof (position_score_range _
                         (unit_position _ _ _ (conj Hlo Hhi) Hnz)).
           lra.
        -- apply Qle_bool_false in Hhi.
           assert (Qltb hourly_rate bmin = false) as -> by (apply Qltb_ge; lra).
           rewrite div_nonzero by lra. cbn [mbind result_bind bind].
           eexists. split; [done|]. by apply above_max_score.
      * exists 1. split; [done|]. split; lra.
    + destruct (Qltb hourly_rate bmin) eqn:Hlt.
      * exists 0.8. split; [done|]. split; lra.
      * apply Qle_bool_false in Hlo. apply Qltb_ge in Hlt. lra.
Qed.

Lemma project_range_budget_total_witness :
  exists q, Proj._calculate_budget_alignment 100 range_80_120 = Ok q
            /\ 0.2 <= q <= 1.
Proof.
  apply (project_range_budget_total 100 range_80_120);
    [reflexivity | reflexivity |].
  intros (bmax & Hmax & _ & Hb). vm_compute in Hmax. injection Hmax as <-.
  vm_compute in Hb. discriminate Hb.
Defined.
Lemma Qdiv_pos a b : 0 < a -> 0 < b -> 0 < a / b.
Proof. intros Ha Hb. apply Qlt_shift_div_l; lra. Qed.

(** X5: for a fixed budget with positive amount, hours and rate, the score
    is the smaller of the implicit rate (amount / hours, 40 hours when
    "estimated_hours" is missing) and the hourly rate divided by the
    larger: it is positive, at most 1.0, and 1.0 exactly when the two rates
    are equal. *)
Theorem project_fixed_budget_ratio (hourly_rate fixed_budget : Q)
    (budget_range : gmap string Q) :
  0 < hourly_rate -> budget_range !! "fixed" = Some fixed_budget ->
  0 < fixed_budget ->
  0 < default 40 (budget_range !! "estimated_hours") ->
  let implicit_rate :=
    fixed_budget / default 40 (budget_range !! "estimated_hours") in
  exists q,
    Proj._calculate_budget_alignment hourly_rate budget_range = Ok q
    /\ 0 < q <= 1
    /\ (q == 1 <-> implicit_rate == hourly_rate)
    /\ (implicit_rate <= hourly_rate -> q == implicit_rate / hourly_rate)
    /\ (hourly_rate <= implicit_rate -> q == hourly_rate / implicit_rate).
Proof.
  intros Hr Hfixed Hf Hh implicit.
  unfold Proj._calculate_budget_alignment.
  destruct (decide _) as [Hsz|_].
  { apply map_size_empty_iff in Hsz. by rewrite Hsz in Hfixed. }
  rewrite Hfixed. rewrite div_nonzero by lra. cbn [mbind result_bind bind].
  fold implicit.
  assert (0 < implicit) as Hi by (by apply Qdiv_pos).
  unfold Py.min, Py.max.
  destruct (Qltb hourly_rate implicit) eqn:E1;
    destruct (Qltb implicit hourly_rate) eqn:E2.
  - apply Qltb_lt in E1, E2. lra.
  - apply Qltb_lt in E1. rewrite div_nonzero by lra.
    eexists. split; [done|].
    assert (hourly_rate / implicit < 1) as Hlt by (apply Qlt_shift_div_r; lra).
    pose proof (Qdiv_pos _ _ Hr Hi).
    split; [split; lra|]. split; [split; lra|]. split; [lra|done].
  - apply Qltb_lt in E2. rewrite div_nonzero by lra.
    eexists. split; [done|].
    assert (implicit / hourly_rate < 1) as Hlt by (apply Qlt_shift_div_r; lra).
    pose proof (Qdiv_pos _ _ Hi Hr).
    split; [split; lra|]. split; [split; lra|]. split; [done|lra].
  - apply Qltb_ge in E1, E2. assert (implicit == hourly_rate) as Heq by lra.
    rewrite div_nonzero by lra. eexists. split; [done|].
    assert (implicit / implicit == 1) as H1 by (apply Qmult_inv_r; lra).
    split; [split; lra|]. split; [done|].
    split; intros _; by rewrite <- Heq.
Qed.

Lemma project_fixed_budget_ratio_witness :
  exists q, Proj._calculate_budget_alignment 100 fixed_4000 = Ok q /\ q == 1.
Proof.
  destruct (project_fixed_budget_ratio 100 4000 fixed_4000)
    as (q & Hq & _ & Hone & _); try reflexivity.
  exists q. split; [exact Hq|]. apply Hone. reflexivity.
Defined.

Lemma talent_budget_cases (hourly_rate : Q) (budget_range : gmap string Q) :
  0 < hourly_rate ->
  exists q,
    Talent._calculate_budget_alignment hourly_rate budget_range = Ok q
    /\ 0.2 <= q <= 1
    /\ (budget_range <> ∅ -> budget_range !! "min" = None ->
        budget_range !! "max" = None -> q = 1)
    /\ (forall bmax, default 0 (budget_range !! "min") <= hourly_rate ->
                     budget_range !! "max" = Some bmax ->
                     hourly_rate <= bmax -> q = 1).
Proof.
  intros Hr. unfold Talent._calculate_budget_alignment.
  destruct (decide _) as [Hsz|Hsz].
  { apply map_size_empty_iff in Hsz. exists 0.5. split; [done|].
    split; [split; lra|]. split; [done|]. intros bmax _ H. by rewrite Hsz in H. }
  set (bmin := default 0 (budget_range !! "min")).
  destruct (Qle_bool bmin hourly_rate) eqn:Hlo; cbn [andb].
  - apply Qle_bool_iff in Hlo.
    destruct (budget_range !! "max") as [bmax|] eqn:Hmax; cbn [Proj.le_max].
    + destruct (Qle_bool hourly_rate bmax) eqn:Hhi.
      * exists 1. split; [done|]. split; [split; lra|]. by split.
      * apply Qle_bool_false in Hhi.
        assert (Qltb hourly_rate bmin = false) as -> by (apply Qltb_ge; lra).
        rewrite div_nonzero by lra. cbn [mbind result_bind bind].
        eexists. split; [done|]. split; [by apply above_max_score|].
        split; [done|]. intros b _ [= <-] Hb. lra.
    + exists 1. split; [done|]. split; [split; lra|]. by split.
  - apply Qle_bool_false in Hlo.
    assert (Qltb hourly_rate bmin = true) as -> by (by apply Qltb_lt).
    exists 0.8. split; [done|]. split; [split; lra|]. split.
    + intros _ Hmin _. unfold bmin in Hlo. rewrite Hmin in Hlo. simpl in Hlo. lra.
    + intros b H. lra.
Qed.

(** X6: for a positive rate the developers-for-project scorer always
    returns, with a score between 0.2 and 1.0; a non-empty budget without
    "min" and "max" (a fixed budget, for one) gets 1.0, and so does every
    rate inside the range. *)
Theorem talent_budget_total (hourly_rate : Q) (budget_range : gmap string Q) :
  0 < hourly_rate ->
  exists q,
    Talent._calculate_budget_alignment hourly_rate budget_range = Ok q
    /\ 0.2 <= q <= 1
    /\ (budget_range <> ∅ -> budget_range !! "min" = None ->
        budget_range !! "max" = None -> q = 1)
    /\ (forall bmax, default 0 (budget_range !! "min") <= hourly_rate ->
                     budget_range !! "max" = Some bmax ->
                     hourly_rate <= bmax -> q = 1).
Proof. apply talent_budget_cases. Qed.

Lemma talent_budget_total_witness :
  exists q, Talent._calculate_budget_alignment 100 fixed_4000 = Ok q /\ q = 1.
Proof.
  destruct (talent_budget_total 100 fixed_4000) as (q & Hq & _ & Hone & _);
    [reflexivity|].
  exists q. split; [exact Hq|]. apply Hone; [|reflexivity..].
  intros Hempty. apply (f_equal size) in Hempty. vm_compute in Hempty.
  discriminate Hempty.
Defined.

(** ** The developers-for-project factors (lines 621-648) *)

Lemma skill_match_unit (profile required : gset string) :
  0 <= Proj.skill_match profile required <= 1.
Proof.
  destruct (decide (required = ∅)) as [->|Hne]; [by vm_compute|].
  rewrite skill_match_nonempty by done. unfold len.
  apply nat_ratio_bounds; [by apply size_pos|].
  apply subseteq_size, intersection_subseteq_r.
Qed.

Lemma experience_fit_range a b : 0.4 <= Talent._calculate_experience_fit a b <= 1.
Proof.
  unfold Talent._calculate_experience_fit. repeat case_match; by vm_compute.
Qed.
Lemma reputation_cases (developer : Developer) :
  Talent._calculate_reputation_score developer <= 1
  /\ (1 <= default 4 (average_rating developer) ->
      0 <= default 0 (total_reviews developer) ->
      0 <= default 0.8 (completion_rate developer) ->
      0 <= Talent._calculate_reputation_score developer)
  /\ (default 4 (average_rating developer) == 5 ->
      default 0.8 (completion_rate developer) == 1 ->
      20 <= default 0 (total_reviews developer) ->
      Talent._calculate_reputation_score developer == 1).
Proof.
  unfold Talent._calculate_reputation_score.
  set (rating := default 4 (average_rating developer)).
  set (reviews := default 0 (total_reviews developer)).
  set (completion := default 0.8 (completion_rate developer)).
  set (credibility := Py.min (reviews / 20) 1).
  set (raw := (rating - 1) / 4 * 0.6 + completion * 0.3 + credibility * 0.1).
  destruct (py_min_spec raw 1) as (Hcase & Hle1 & Hle2).
  destruct (py_min_spec (reviews / 20) 1) as (Hc & Hc1 & Hc2).
  fold credibility in Hc, Hc1, Hc2.
  assert ((rating - 1) / 4 == (rating - 1) * (1 # 4)) as Hq by reflexivity.
  assert (reviews / 20 == reviews * (1 # 20)) as Hv by reflexivity.
  split; [done|]. split.
  - intros Hr Hn Hco.
    assert (0 <= credibility) as Hcred by (destruct Hc as [-> | ->]; lra).
    assert (0 <= raw) as Hraw by (unfold raw; rewrite Hq; lra).
    destruct Hcase as [-> | ->]; lra.
  - intros Hr Hco Hn.
    assert (credibility == 1) as Hcred by (destruct Hc as [H | H]; lra).
    assert (raw == 1) as Hraw by (unfold raw; rewrite Hq, Hr, Hco, Hcred; lra).
    destruct Hcase as [-> | ->]; lra.
Qed.



Lemma availability_range (developer : Developer) :
  0.3 <= Talent._calculate_availability_score developer <= 1.
Proof.
  unfold Talent._calculate_availability_score.
  destruct (Talent.status_scores !! _) as [v|] eqn:E; simpl; [|by vm_compute].
  apply elem_of_list_to_map_2 in E.
  repeat (apply elem_of_cons in E as [[= _ ->]|E]; [by vm_compute|]).
  by apply elem_of_nil in E.
Qed.

Lemma talent_explanation_nonempty sm em bf rep developer :
  let explanation :=
    Talent._generate_talent_explanation sm em bf rep developer in
  (1 <= length explanation <= 5)%nat.
Proof.
  unfold Talent._generate_talent_explanation. split_ifs; simpl; lia.
Qed.


(** A loop that appends one dict per element and cannot fail. *)
Lemma for_each_collect_total {A B} (P : B -> Prop)
    (body : list B -> A -> result (list B)) (l : list A) (acc : list B) :
  (forall acc x, x ∈ l -> exists y, body acc x = Ok (acc ++ [y]) /\ P y) ->
  exists ys, for_each body l acc = Ok (acc ++ ys)
             /\ Forall P ys /\ length ys = length l.
Proof.
  revert acc. induction l as [|x l IH]; intros acc Hbody.
  - exists []. by rewrite app_nil_r.
  - destruct (Hbody acc x) as (y & Hy & HP); [left|].
    destruct (IH (acc ++ [y])) as (ys & Hys & Hall & Hlen).
    { intros acc' x' Hx'. apply Hbody. by right. }
    exists (y :: ys). cbn [for_each]. rewrite Hy. cbn [mbind result_bind bind].
    rewrite Hys, <- app_assoc. split; [done|]. split; [by constructor|].
    simpl. by rewrite Hlen.
Qed.

(** ** Talent recommendations end to end (lines 508-587) *)

(** X8: for candidates with a positive rate, a rating of at least 1 and
    non-negative review count and completion rate (defaults included),
    [generate_talent_recommendations] returns; every result has a
    relevance score in [0, 1], one to five explanation strings, the
    engine's version tag, and the id of a candidate. *)
Theorem talent_recommendations_total (self : Talent.engine) (project : Project)
    (candidates : list Developer) (limit : Z) :
  Forall plausible candidates ->
  exists out,
    Talent.generate_talent_recommendations self project candidates limit
    = Ok out
    /\ forall r, r ∈ out ->
         0 <= relevance_score r <= 1
         /\ (1 <= length (explanation r) <= 5)%nat
         /\ Data.model_version r = Talent.model_version self
         /\ exists developer, developer ∈ candidates
                              /\ subject_id r = user_id developer.
Proof.
  intros Hall. unfold Talent.generate_talent_recommendations.
  set (P := fun r : Recommendation =>
              0 <= relevance_score r <= 1
              /\ (1 <= length (explanation r) <= 5)%nat
              /\ Data.model_version r = Talent.model_version self
              /\ exists developer, developer ∈ candidates
                                   /\ subject_id r = user_id developer).
  match goal with
  | |- context [for_each ?body ?l ?acc] =>
      destruct (for_each_collect_total P body l acc) as (ys & -> & HP & _)
  end.
  { intros acc developer Hin.
    rewrite Forall_forall in Hall.
    destruct (Hall developer Hin) as (Hrate & Hrating & Hreviews & Hcompl).
    destruct (talent_budget_cases _
                (default ∅ (budget_range project)) Hrate)
      as (q & -> & Hq & _).
    cbn [mbind result_bind bind]. eexists. split; [reflexivity|].
    unfold P. cbn [relevance_score explanation Data.model_version subject_id].
    split; [|split; [apply talent_explanation_nonempty|split; [done|by exists developer]]].
    apply round4_unit.
    destruct (skill_match_same (set (default [] (skills developer)))
                (set (default [] (required_skills project)))) as [-> _].
    pose proof (skill_match_unit (set (default [] (skills developer)))
                  (set (default [] (required_skills project)))).
    pose proof (experience_fit_range
                  (default "mid" (experience_level developer))
                  (default "medium" (complexity_level project))).
    destruct (reputation_cases developer) as (Hrep1 & Hrep0 & _).
    specialize (Hrep0 Hrating Hreviews Hcompl).
    pose proof (availability_range developer).
    split; lra. }
  cbn [mbind result_bind bind]. eexists. split; [done|].
  intros r Hr. apply elem_of_rank_and_truncate in Hr as (r0 & k & Hr0 & ->).
  rewrite Forall_forall in HP. apply (HP r0). by rewrite app_nil_l in Hr0.
Qed.

Lemma talent_recommendations_total_witness :
  exists out,
    Talent.generate_talent_recommendations (Talent.init "20250101")
      project_python_react_aws three_developers 10 = Ok out.
Proof.
  destruct (talent_recommendations_total (Talent.init "20250101")
              project_python_react_aws three_developers 10) as (out & H & _).
  - repeat (constructor; [repeat split; by vm_compute|]). constructor.
  - by exists out.
Defined.

(** ** Cold start, the range of the scores (lines 703-747) *)

(** X9: with non-negative application counts every cold-start relevance
    score lies in [0, 1], every explanation has two strings, and a project
    without applications scores at most 0.3. *)
Theorem cold_start_scores_unit (self : Cold.recommender) (profile : Developer)
    (limit : Z) (r : Recommendation) :
  Forall (fun p => 0 <= default 0 (application_count p))
         (Cold.popular_projects self) ->
  r ∈ Cold.get_cold_start_project_recommendations self profile limit ->
  0 <= relevance_score r <= 1
  /\ length (explanation r) = 2%nat
  /\ exists p, p ∈ Cold.popular_projects self /\ subject_id r = id p
               /\ (default 0 (application_count p) == 0 ->
                   relevance_score r <= 0.3).
Proof.
  intros Hcounts Hr. unfold Cold.get_cold_start_project_recommendations in Hr.
  apply elem_of_rank_and_truncate in Hr as (r0 & k & Hr0 & ->).
  apply list_elem_of_fmap in Hr0 as (p & -> & Hp).
  rewrite Forall_forall in Hcounts. specialize (Hcounts p Hp).
  cbn [set_rank Cold.recommendation_of relevance_score explanation].
  set (count := default 0 (application_count p)) in *.
  set (sm := Cold.skill_match _ _).
  assert (0 <= sm <= 1) as Hsm.
  { unfold sm. destruct (skill_match_same (set (default [] (skills profile)))
                           (set (default [] (required_skills p)))) as [_ ->].
    apply skill_match_unit. }
  destruct (py_min_spec (count / 50) 1) as (Hc & Hc1 & Hc2).
  assert (count / 50 == count * (1 # 50)) as Hq by reflexivity.
  assert (Py.min (count / 50) 1 == count * (1 # 50)
          \/ Py.min (count / 50) 1 == 1) as Hc'.
  { destruct Hc as [H | H]; [left; by rewrite H | by right]. }
  assert (Py.min (count / 50) 1 <= count * (1 # 50)) as Hc1'
    by (by rewrite <- Hq).
  assert (0 <= Py.min (count / 50) 1) as Hpop.
  { destruct Hc' as [-> | ->]; lra. }
  split; [apply round4_unit; split; lra|]. split; [done|].
  exists p. split; [done|]. split; [done|]. intros Hzero.
  change (count == 0) in Hzero.
  assert (Py.min (count / 50) 1 == 0) as Hmin.
  { destruct Hc' as [H | H]; lra. }
  unfold round4. rewrite Qred_correct.
  destruct (round_half_even_bounds 0 3000
              ((Py.min (count / 50) 1 * 0.7 + sm * 0.3) * 10000)) as [_ Hhi].
  { unfold inject_Z. split; lra. }
  unfold Qle. simpl. lia.
Qed.

Lemma cold_start_scores_unit_witness :
  exists r,
    Cold.get_cold_start_project_recommendations
      {| Cold.popular_projects := [popular_25]; Cold.popular_developers := [] |}
      developer_python_react 10 = [r]
    /\ 0 <= relevance_score r <= 1.
Proof.
  eexists. split; [reflexivity|].
  eapply (cold_start_scores_unit
            {| Cold.popular_projects := [popular_25];
               Cold.popular_developers := [] |}
            developer_python_react 10).
  - repeat (constructor; [by vm_compute|]). constructor.
  - left.
Defined.

(** ** Content scores and project recommendations (lines 147-212, 356-429) *)








(** Without a model, or for a user the model does not know, the
    collaborative scorer cannot raise. *)
Lemma cold_collaborative_scores (self : Proj.engine) (user_id : string)
    (candidates : list string) (top_k : Z) :
  Proj.similarity_model self = None \/ Proj.user_index self !! user_id = None ->
  exists scores,
    Proj.calculate_collaborative_scores self user_id candidates top_k
    = Ok scores
    /\ dom scores = list_to_set candidates
    /\ forall c q, scores !! c = Some q -> q = 0.5.
Proof.
  intros Hcold. eexists. split.
  { unfold Proj.calculate_collaborative_scores.
    destruct Hcold as [-> | ->]; [done|].
    by destruct (Proj.similarity_model self). }
  split.
  - apply set_eq. intros c. rewrite elem_of_dom, neutral_scores_spec.
    rewrite elem_of_list_to_set. destruct (decide (c ∈ candidates)).
    + split; [done|]. intros _. by eexists.
    + rewrite lookup_empty. split; [by intros [? ?]|done].
  - intros c q. rewrite neutral_scores_spec.
    destruct (decide (c ∈ candidates)); [congruence|]. by rewrite lookup_empty.
Qed.


(** ** Persistence (lines 470-497) *)

Lemma engine_eq (a b : Proj.engine) :
  Proj.similarity_model a = Proj.similarity_model b ->
  Proj.user_item_matrix a = Proj.user_item_matrix b ->
  Proj.user_index a = Proj.user_index b ->
  Proj.item_index a = Proj.item_index b ->
  Proj.model_version a = Proj.model_version b -> a = b.
Proof. destruct a, b. simpl. by intros -> -> -> -> ->. Qed.
Lemma load_model_cases (self : Proj.engine)
    (fs : gmap string Proj.file_content) (filepath : string) :
  (exists d s m u i v,
      fs !! filepath = Some (Proj.Pickled d)
      /\ Proj.md_similarity_model d = Some s
      /\ Proj.md_user_item_matrix d = Some m
      /\ Proj.md_user_index d = Some u
      /\ Proj.md_item_index d = Some i
      /\ Proj.md_model_version d = Some v
      /\ Proj.load_model self fs filepath
         = ({| Proj.similarity_model := s; Proj.user_item_matrix := m;
               Proj.user_index := u; Proj.item_index := i;
               Proj.model_version := v |}, Ok ()))
  \/ (exists self' e, Proj.load_model self fs filepath = (self', Raise e)
                      /\ (e = FileNotFoundError <-> fs !! filepath = None)
                      /\ (e = UnpicklingError
                          <-> fs !! filepath = Some Proj.Garbage)).
Proof.
  unfold Proj.load_model, Proj.read_pickle.
  destruct (fs !! filepath) as [[|d]|] eqn:Hfile.
  - right. do 2 eexists. split; [done|]. split; split; done.
  - destruct d as [[s|] [m|] [u|] [i|] [v|] t]; simpl;
      first [ left; by repeat eexists
            | right; do 2 eexists; split; [done|]; split; split; done ].
  - right. do 2 eexists. split; [done|]. split; split; done.
Qed.


(** X13: a snapshot saved with [save_model] and loaded back into any
    engine is recovered field for field, and saving touches no other
    path. *)
Theorem save_load_round_trip (saved loader : Proj.engine) (now : Z)
    (filepath : string) (fs : gmap string Proj.file_content) :
  Proj.load_model loader (Proj.save_model saved now filepath fs) filepath
  = (saved, Ok ())
  /\ forall other, other <> filepath ->
       Proj.save_model saved now filepath fs !! other = fs !! other.
Proof.
  split.
  - unfold Proj.load_model, Proj.read_pickle, Proj.save_model.
    rewrite lookup_insert_eq. simpl. f_equal. by apply engine_eq.
  - intros other Hne. unfold Proj.save_model. by rewrite lookup_insert_ne.
Qed.

(** ** The model endpoints ([api/main.py], lines 129-146 and 267-296) *)

(** X14: [reload_model] answers with the new version and sets
    MODEL_LOADED when the load succeeds; every failure is answered with
    status 500, the missing file included (its 404 is raised inside the
    [try] and caught there), keeps MODEL_LOADED and the version tag as
    they were, and for a missing or unreadable file leaves the whole state
    as it was. *)
Theorem reload_model_outcome (s : Api.server)
    (fs : gmap string Proj.file_content) (model_path : string) :
  let after := fst (Api.reload_model s fs model_path) in
  match snd (Api.reload_model s fs model_path) with
  | Api.Response version =>
      Api.MODEL_LOADED after = true
      /\ version = Proj.model_version (Api.project_engine after)
      /\ exists d, fs !! model_path = Some (Proj.Pickled d)
                   /\ Proj.md_model_version d = Some version
  | Api.HTTPException status_code =>
      status_code = 500%Z
      /\ Api.MODEL_LOADED after = Api.MODEL_LOADED s
      /\ Proj.model_version (Api.project_engine after)
         = Proj.model_version (Api.project_engine s)
      /\ (fs !! model_path = None \/ fs !! model_path = Some Proj.Garbage ->
          after = s)
  end.
Proof.
  unfold Api.reload_model, Api.reload_model_try.
  destruct (fs !! model_path) as [c|] eqn:Hfile; cbn [fst snd].
  2:{ split; [done|]. split; [done|]. split; [done|]. intros _. by destruct s. }
  destruct (load_model_cases (Api.project_engine s) fs model_path)
    as [(d & sm & m & u & i & v & Hd & _ & _ & _ & _ & Hv & ->)
       |(self' & e & Hload & _ & _)].
  - simpl. split; [done|]. split; [done|]. exists d. split; [congruence|done].
  - rewrite Hload. simpl.
    split; [done|]. split; [done|].
    unfold Proj.load_model, Proj.read_pickle in Hload. rewrite Hfile in Hload.
    destruct c as [|d].
    + injection Hload as <- <-. split; [done|]. intros _. by destruct s.
    + split.
      * destruct d as [[?|] [?|] [?|] [?|] [?|] ?]; simpl in Hload;
          by simplify_eq.
      * intros [[=]|[=]].
Qed.

(** X15: after [startup_event], MODEL_LOADED says whether [load_model]
    succeeded on the configured path, and when it did the state is the one
    a [reload_model] would have produced. *)
Theorem startup_event_loaded (s : Api.server)
    (fs : gmap string Proj.file_content) (model_path : string) :
  let after := Api.startup_event s fs model_path in
  (Api.MODEL_LOADED after = true
   <-> exists e, Proj.load_model (Api.project_engine s) fs model_path
                 = (e, Ok ()))
  /\ (Api.MODEL_LOADED after = true ->
      snd (Api.reload_model s fs model_path)
      = Api.Response (Proj.model_version (Api.project_engine after))
      /\ fst (Api.reload_model s fs model_path) = after).
Proof.
  unfold Api.startup_event, Api.reload_model, Api.reload_model_try.
  destruct (fs !! model_path) as [c|] eqn:Hfile.
  2:{ cbn. split; [|done]. split; [done|]. intros [e He].
      unfold Proj.load_model, Proj.read_pickle in He. by rewrite Hfile in He. }
  destruct (Proj.load_model (Api.project_engine s) fs model_path)
    as [engine [[]|e]]; cbn.
  - split; [|done]. split; [by exists engine|done].
  - split; [|done]. split; [done|]. by intros [e' [=]].
Qed.

Lemma startup_event_loaded_witness :
  Api.MODEL_LOADED
    (Api.startup_event fresh_server disk_with_snapshot "model.pkl") = true.
Proof.
  destruct (startup_event_loaded fresh_server disk_with_snapshot "model.pkl")
    as [[_ H] _].
  apply H. eexists. by vm_compute.
Defined.

(** ** Training (lines 35-92) *)

Lemma labels_perm (l : list string) : Proj.labels l ≡ₚ remove_dups l.
Proof. unfold Proj.labels. apply sort_by_perm. Qed.

Lemma labels_NoDup (l : list string) : NoDup (Proj.labels l).
Proof. rewrite labels_perm. apply NoDup_remove_dups. Qed.

Lemma elem_of_labels (l : list string) (x : string) :
  x ∈ Proj.labels l <-> x ∈ l.
Proof. rewrite labels_perm. apply elem_of_remove_dups. Qed.

Lemma length_labels (l : list string) :
  length (Proj.labels l) = size (list_to_set l : gset string).
Proof.
  rewrite labels_perm.
  assert ((list_to_set l : gset string) = list_to_set (remove_dups l)) as ->.
  { apply set_eq. intros x.
    by rewrite !elem_of_list_to_set, elem_of_remove_dups. }
  symmetry. apply size_list_to_set, NoDup_remove_dups.
Qed.

Lemma index_of_lookup (l : list string) (k : string) (i : nat) :
  NoDup l -> Proj.index_of l !! k = Some i <-> l !! i = Some k.
Proof.
  intros Hnd. unfold Proj.index_of.
  assert ((imap (fun idx label => (label, idx)) l).*1 = l) as Hfst.
  { assert (forall n,
              (imap (fun idx label => (label, (n + idx)%nat)) l).*1 = l) as H.
    { clear Hnd. induction l as [|x l IH]; intros n; [done|].
      rewrite imap_cons, fmap_cons. simpl. f_equal.
      rewrite <- (IH (S n)) at 2. f_equal. apply imap_ext.
      intros j y _. simpl. f_equal. lia. }
    exact (H 0%nat). }
  rewrite <- elem_of_list_to_map by (by rewrite Hfst).
  rewrite list_elem_of_lookup. split.
  - intros [j Hj]. apply list_lookup_imap_Some in Hj as (y & Hy & [= -> ->]).
    done.
  - intros Hi. exists i. apply list_lookup_imap_Some. by exists k.
Qed.

Lemma size_index_of (l : list string) :
  NoDup l -> size (Proj.index_of l) = length l.
Proof.
  intros Hnd.
  assert (dom (Proj.index_of l) = list_to_set l) as Hdom.
  { apply set_eq. intros k. rewrite elem_of_dom, elem_of_list_to_set.
    rewrite list_elem_of_lookup. split.
    - intros [i Hi]. exists i. by apply index_of_lookup.
    - intros [i Hi]. exists i. by apply index_of_lookup. }
  rewrite <- size_dom, Hdom. by apply size_list_to_set.
Qed.

Lemma group_sum_nonneg (rows : list Proj.interaction) (u p : string) :
  (0 <= Proj.group_sum rows
          ((fun r => Proj.weight_map !! Proj.interaction_type r) <$> rows)
          u p)%Z.
Proof.
  unfold Proj.group_sum. induction rows as [|r rows IH]; [done|].
  rewrite fmap_cons. cbn [zip zip_with foldr fst snd].
  destruct (_ && _); [|done].
  assert (0 <= default 0 (Proj.weight_map !! Proj.interaction_type r))%Z.
  { destruct (Proj.weight_map !! _) as [w|] eqn:E; simpl; [|done].
    apply elem_of_list_to_map_2 in E.
    repeat (apply elem_of_cons in E as [[= _ ->]|E]; [done|]).
    by apply elem_of_nil in E. }
  lia.
Qed.
Lemma interaction_matrix_facts (interaction_data : Proj.DataFrame) :
  let matrix := snd (Proj._create_interaction_matrix interaction_data) in
  let users := Proj.user_id <$> Proj.rows interaction_data in
  let projects := Proj.project_id <$> Proj.rows interaction_data in
  NoDup (Proj.index matrix) /\ NoDup (Proj.columns matrix)
  /\ (forall u, u ∈ Proj.index matrix <-> u ∈ users)
  /\ (forall p, p ∈ Proj.columns matrix <-> p ∈ projects)
  /\ length (Proj.values matrix) = length (Proj.index matrix)
  /\ Forall (fun row => length row = length (Proj.columns matrix))
            (Proj.values matrix)
  /\ Forall (Forall (fun z => (0 <= z)%Z)) (Proj.values matrix)
  /\ (Proj.rows interaction_data = [] -> Proj.values matrix = []).
Proof.
  intros matrix users projects. subst matrix. simpl.
  split; [apply labels_NoDup|]. split; [apply labels_NoDup|].
  split; [intros u; apply elem_of_labels|].
  split; [intros p; apply elem_of_labels|].
  split; [by rewrite length_fmap|].
  split.
  - apply Forall_fmap, Forall_forall. intros u _. simpl. by rewrite length_fmap.
  - split.
    + apply Forall_fmap, Forall_forall. intros u _. simpl.
      apply Forall_fmap, Forall_forall. intros p _. apply group_sum_nonneg.
    + by intros ->.
Qed.

(** X16: the interaction matrix has one row per distinct user and one
    column per distinct project of the data, each label once, every row
    as wide as the column list, and no negative cell; without
    interactions it has no rows. *)
Theorem interaction_matrix_shape (interaction_data : Proj.DataFrame) :
  let matrix := snd (Proj._create_interaction_matrix interaction_data) in
  let users := Proj.user_id <$> Proj.rows interaction_data in
  let projects := Proj.project_id <$> Proj.rows interaction_data in
  NoDup (Proj.index matrix) /\ NoDup (Proj.columns matrix)
  /\ (forall u, u ∈ Proj.index matrix <-> u ∈ users)
  /\ (forall p, p ∈ Proj.columns matrix <-> p ∈ projects)
  /\ length (Proj.values matrix) = length (Proj.index matrix)
  /\ Forall (fun row => length row = length (Proj.columns matrix))
            (Proj.values matrix)
  /\ Forall (Forall (fun z => (0 <= z)%Z)) (Proj.values matrix)
  /\ (Proj.rows interaction_data = [] -> Proj.values matrix = []).
Proof. apply interaction_matrix_facts. Qed.

Lemma interaction_matrix_shape_witness :
  Proj.values (snd (Proj._create_interaction_matrix no_interactions)) = [].
Proof.
  destruct (interaction_matrix_shape no_interactions)
    as (_ & _ & _ & _ & _ & _ & _ & H).
  apply H. reflexivity.
Defined.

Section TrainingFacts.
Context (cosine_similarity : list (list Z) -> result (list (list Q))).
Context (self : Proj.engine) (interaction_data : Proj.DataFrame).

#[local] Abbreviation run :=
  (Proj.train_collaborative_model cosine_similarity self interaction_data).
#[local] Abbreviation matrix :=
  (snd (Proj._create_interaction_matrix interaction_data)).

(** What a successful training pass leaves in the engine and reports. *)
Lemma training_success_facts (report : Proj.metrics) :
  snd run = Ok report ->
  let trained := fst (fst run) in
  cosine_similarity (Proj.values matrix)
  = Ok (default [] (Proj.similarity_model trained))
  /\ Proj.user_item_matrix trained = Some (Proj.values matrix)
  /\ Proj.model_version trained = Proj.model_version self
  /\ (forall u i, Proj.user_index trained !! u = Some i
                  <-> Proj.index matrix !! i = Some u)
  /\ (forall p j, Proj.item_index trained !! p = Some j
                  <-> Proj.columns matrix !! j = Some p)
  /\ (forall r, r ∈ Proj.rows interaction_data ->
        exists i j,
          Proj.user_index trained !! Proj.user_id r = Some i
          /\ Proj.item_index trained !! Proj.project_id r = Some j
          /\ exists row z, Proj.values matrix !! i = Some row
                           /\ row !! j = Some z /\ (0 <= z)%Z)
  /\ Proj.num_users report
     = size (list_to_set (Proj.user_id <$> Proj.rows interaction_data)
             : gset string)
  /\ Proj.num_items report
     = size (list_to_set (Proj.project_id <$> Proj.rows interaction_data)
             : gset string)
  /\ Proj.metrics_model_version report = Proj.model_version self.
Proof.
  unfold Proj.train_collaborative_model.
  destruct (interaction_matrix_facts interaction_data)
    as (Hnu & Hnp & Hu & Hp & Hlen & Hrows & Hpos & _).
  change (snd (Proj._create_interaction_matrix interaction_data))
    with matrix in *.
  cbn [Proj._create_interaction_matrix fst snd].
  change (Proj.values _) with (Proj.values matrix).
  destruct (cosine_similarity (Proj.values matrix)) as [sim|e] eqn:Hcos;
    [|discriminate].
  cbn [fst snd]. intros [= <-]. cbn.
  assert (forall u i, Proj.index_of (Proj.index matrix) !! u = Some i
                      <-> Proj.index matrix !! i = Some u) as Hui
    by (intros; by apply index_of_lookup).
  assert (forall p j, Proj.index_of (Proj.columns matrix) !! p = Some j
                      <-> Proj.columns matrix !! j = Some p) as Hpj
    by (intros; by apply index_of_lookup).
  split; [done|]. split; [done|]. split; [done|].
  split; [exact Hui|]. split; [exact Hpj|]. split.
  - intros r Hr.
    assert (Proj.user_id r ∈ Proj.index matrix) as Hin.
    { apply Hu, list_elem_of_fmap. by exists r. }
    assert (Proj.project_id r ∈ Proj.columns matrix) as Hin'.
    { apply Hp, list_elem_of_fmap. by exists r. }
    apply list_elem_of_lookup_1 in Hin as [i Hi].
    apply list_elem_of_lookup_1 in Hin' as [j Hj].
    exists i, j. split; [by apply Hui|]. split; [by apply Hpj|].
    assert (i < length (Proj.values matrix))%nat as Hil.
    { rewrite Hlen. by eapply lookup_lt_Some. }
    apply lookup_lt_is_Some in Hil as [row Hrow].
    rewrite Forall_forall in Hrows, Hpos.
    pose proof (Hrows row (list_elem_of_lookup_2 _ _ _ Hrow)) as Hw.
    assert (j < length row)%nat as Hjl.
    { rewrite Hw. by eapply lookup_lt_Some. }
    apply lookup_lt_is_Some in Hjl as [z Hz].
    exists row, z. split; [done|]. split; [done|].
    pose proof (Hpos row (list_elem_of_lookup_2 _ _ _ Hrow)) as Hr'.
    rewrite Forall_forall in Hr'. apply Hr'. by eapply list_elem_of_lookup_2.
  - split; [|split; [|done]].
    + rewrite size_index_of by done. apply length_labels.
    + rewrite size_index_of by done. apply length_labels.
Qed.

End TrainingFacts.

(** X17: after a training pass that returns, the engine holds the matrix
    and what [cosine_similarity] made of it, the version tag is unchanged,
    the two indexes map each label to its position in the matrix, every
    interaction of the data is indexed and inside the matrix, and the
    metrics count the distinct users and projects. *)
Theorem training_success
    (cosine_similarity : list (list Z) -> result (list (list Q)))
    (self : Proj.engine) (interaction_data : Proj.DataFrame)
    (report : Proj.metrics) :
  let run :=
    Proj.train_collaborative_model cosine_similarity self interaction_data in
  let matrix := snd (Proj._create_interaction_matrix interaction_data) in
  let trained := fst (fst run) in
  snd run = Ok report ->
  cosine_similarity (Proj.values matrix)
  = Ok (default [] (Proj.similarity_model trained))
  /\ Proj.user_item_matrix trained = Some (Proj.values matrix)
  /\ Proj.model_version trained = Proj.model_version self
  /\ (forall u i, Proj.user_index trained !! u = Some i
                  <-> Proj.index matrix !! i = Some u)
  /\ (forall p j, Proj.item_index trained !! p = Some j
                  <-> Proj.columns matrix !! j = Some p)
  /\ (forall r, r ∈ Proj.rows interaction_data ->
        exists i j,
          Proj.user_index trained !! Proj.user_id r = Some i
          /\ Proj.item_index trained !! Proj.project_id r = Some j
          /\ exists row z, Proj.values matrix !! i = Some row
                           /\ row !! j = Some z /\ (0 <= z)%Z)
  /\ Proj.num_users report
     = size (list_to_set (Proj.user_id <$> Proj.rows interaction_data)
             : gset string)
  /\ Proj.num_items report
     = size (list_to_set (Proj.project_id <$> Proj.rows interaction_data)
             : gset string)
  /\ Proj.metrics_model_version report = Proj.model_version self.
Proof. apply training_success_facts. Qed.

(** X18: when [cosine_similarity] raises, training raises the same
    exception and leaves the engine with the new interaction matrix next
    to the old similarity matrix, indexes and version tag. *)
Theorem training_failure_frame
    (cosine_similarity : list (list Z) -> result (list (list Q)))
    (self : Proj.engine) (interaction_data : Proj.DataFrame) (e : exn) :
  let run :=
    Proj.train_collaborative_model cosine_similarity self interaction_data in
  let matrix := snd (Proj._create_interaction_matrix interaction_data) in
  let after := fst (fst run) in
  snd run = Raise e ->
  cosine_similarity (Proj.values matrix) = Raise e
  /\ Proj.user_item_matrix after = Some (Proj.values matrix)
  /\ Proj.similarity_model after = Proj.similarity_model self
  /\ Proj.user_index after = Proj.user_index self
  /\ Proj.item_index after = Proj.item_index self
  /\ Proj.model_version after = Proj.model_version self.
Proof.
  cbv zeta. unfold Proj.train_collaborative_model.
  cbn [Proj._create_interaction_matrix fst snd].
  destruct (cosine_similarity _) as [sim|e'] eqn:Hcos; [discriminate|].
  cbn [fst snd]. by intros [= <-].
Qed.

Lemma training_success_witness :
  exists report,
    snd (Proj.train_collaborative_model (fun _ => Ok twin_similarity)
           (Proj.init "20250101") two_views) = Ok report
    /\ Proj.num_users report = 2%nat.
Proof.
  destruct (snd (Proj.train_collaborative_model (fun _ => Ok twin_similarity)
                   (Proj.init "20250101") two_views))
    as [report|e] eqn:E.
  - exists report. split; [reflexivity|].
    destruct (training_success (fun _ => Ok twin_similarity)
                (Proj.init "20250101") two_views report E)
      as (_ & _ & _ & _ & _ & _ & H & _).
    rewrite H. by vm_compute.
  - vm_compute in E. discriminate E.
Defined.

Lemma training_failure_frame_witness :
  Proj.user_item_matrix
    (fst (fst (Proj.train_collaborative_model (fun _ => Raise ValueError)
                 (Proj.init "20250101") two_views)))
  = Some [[1]; [1]]%Z.
Proof.
  destruct (training_failure_frame (fun _ => Raise ValueError)
              (Proj.init "20250101") two_views ValueError eq_refl)
    as (_ & H & _).
  rewrite H. by vm_compute.
Defined.

(** ** Neighbour selection, the general shape (lines 114-116) *)

Lemma reverse_argsort_descending (row : list Q) :
  reverse (argsort row) ≡ₚ seq 0 (length row)
  /\ descending row (reverse (argsort row)).
Proof.
  destruct (sort_by_stable Qle_bool Qle_bool_total Qle_bool_trans row)
    as (Hperm & _ & Hord).
  fold (argsort row) in Hperm, Hord. split; [by rewrite reverse_Permutation|].
  intros i j a b sa sb Hij Hi Hj Ha Hb.
  pose proof (lookup_lt_Some _ _ _ Hj) as Hlen. rewrite length_reverse in Hlen.
  rewrite reverse_lookup in Hi by lia. rewrite reverse_lookup in Hj by lia.
  destruct (Hord (length (argsort row) - S j)%nat
              (length (argsort row) - S i)%nat b a sb sa ltac:(lia)
              Hj Hi Hb Ha) as [Hle _].
  by apply Qle_bool_iff in Hle.
Qed.

(** X19: for K >= 0 the neighbour list is entries 1 to K of an arrangement
    of all user positions by non-increasing similarity: it has
    min(K, users - 1) entries, no position twice, and every position is
    inside the row. *)
Theorem similar_users_selection (row : list Q) (top_k : Z) :
  (0 <= top_k)%Z ->
  let neighbours := Proj.similar_users row top_k in
  NoDup neighbours
  /\ Forall (fun n => (n < length row)%nat) neighbours
  /\ length neighbours = Nat.min (Z.to_nat top_k) (length row - 1)
  /\ exists arrangement,
      arrangement ≡ₚ seq 0 (length row)
      /\ descending row arrangement
      /\ neighbours = take (Z.to_nat top_k) (drop 1 arrangement).
Proof.
  intros Hk neighbours.
  destruct (reverse_argsort_descending row) as [Hperm Hdesc].
  assert (neighbours
          = take (Z.to_nat top_k) (drop 1 (reverse (argsort row)))) as Hn.
  { unfold neighbours, Proj.similar_users, slice, clamp.
    set (L := reverse (argsort row)).
    assert (length L = length row) as HL
      by (unfold L; by rewrite Hperm, length_seq).
    destruct (Z.ltb_spec (top_k + 1) 0); [lia|]. cbn [Z.ltb Z.compare].
    destruct (length L) as [|n] eqn:En.
    - apply nil_length_inv in En. rewrite En. by rewrite !drop_nil, !take_nil.
    - replace (Z.to_nat (1 `min` Z.of_nat (S n))) with 1%nat by lia.
      apply list_eq. intros i. rewrite !lookup_take.
      repeat case_decide; try done; try lia.
      all: symmetry; apply lookup_ge_None; rewrite length_drop; lia. }
  assert (NoDup (reverse (argsort row))) as Hnd
    by (rewrite Hperm; apply NoDup_seq).
  split; [|split; [|split]].
  - rewrite Hn. apply sublist_NoDup with (reverse (argsort row)); [done|].
    etrans; [apply sublist_take|apply sublist_drop].
  - apply Forall_forall. intros n. apply similar_users_in_range.
  - rewrite Hn, length_take, length_drop, Hperm, length_seq. lia.
  - by exists (reverse (argsort row)).
Qed.

Lemma similar_users_selection_witness :
  length (Proj.similar_users [1; 1 # 2; 0] 50) = 2%nat.
Proof.
  destruct (similar_users_selection [1; 1 # 2; 0] 50) as (_ & _ & H & _);
    [lia|].
  rewrite H. reflexivity.
Defined.

(** ** Collaborative scoring, range and keys (lines 94-145) *)

Lemma Qsum_nonneg_map {A} (f : A -> Q) (l : list A) :
  (forall x, 0 <= f x) -> 0 <= Qsum (f <$> l).
Proof.
  intros Hf. apply Qsum_nonneg, Forall_fmap, Forall_forall.
  intros x _. apply Hf.
Qed.

Lemma neighbour_average_unit (sim : nat -> Q) (interaction : nat -> Z)
    (ns : list nat) :
  (forall n, 0 <= sim n) -> (forall n, (0 <= interaction n)%Z) ->
  0 <= neighbour_average sim interaction ns <= 1.
Proof.
  intros Hsim Hint. unfold neighbour_average.
  set (active := filter _ ns).
  set (num := Qsum ((fun n => sim n * inject_Z (interaction n)) <$> active)).
  set (den := Qsum (sim <$> active)).
  destruct (Qeq_bool den 0) eqn:Hz; [split; by vm_compute|].
  assert (0 <= num) as Hnum.
  { apply Qsum_nonneg_map. intros n. apply Qmult_le_0_compat; [done|].
    change 0 with (inject_Z 0). rewrite <- Zle_Qle. apply Hint. }
  assert (0 < den) as Hden.
  { pose proof (Qsum_nonneg_map sim active Hsim) as H. fold den in H.
    apply Qle_lteq in H as [H|H]; [done|].
    symmetry in H. apply Qeq_bool_iff in H. congruence. }
  assert (0 <= num / den / 10) as Hpos.
  { assert (num / den / 10 == num / den * (1 # 10)) as -> by reflexivity.
    assert (0 <= num / den) by (apply Qle_shift_div_l; lra). lra. }
  destruct (py_min_spec (num / den / 10) 1) as ([-> | ->] & _ & H1); lra.
Qed.

Lemma scorable_scores (self : Proj.engine) (user_id : string)
    (candidates : list string) (top_k : Z) :
  scorable self user_id ->
  exists scores,
    Proj.calculate_collaborative_scores self user_id candidates top_k
    = Ok scores
    /\ dom scores = list_to_set candidates
    /\ (forall c q, scores !! c = Some q -> 0 <= q <= 1)
    /\ (forall c q, scores !! c = Some q ->
                    Proj.item_index self !! c = None -> q = 0.5).
Proof.
  unfold scorable. intros Hok.
  destruct (Proj.similarity_model self) as [sim|] eqn:Hsim.
  2:{ destruct (cold_collaborative_scores self user_id candidates top_k)
        as (scores & -> & Hdom & Hhalf); [by left|].
      exists scores. split; [done|]. split; [done|]. split.
      - intros c q Hq. rewrite (Hhalf c q Hq). split; by vm_compute.
      - intros c q Hq _. by apply (Hhalf c). }
  destruct (Proj.user_index self !! user_id) as [u|] eqn:Hu.
  2:{ destruct (cold_collaborative_scores self user_id candidates top_k)
        as (scores & -> & Hdom & Hhalf); [by right|].
      exists scores. split; [done|]. split; [done|]. split.
      - intros c q Hq. rewrite (Hhalf c q Hq). split; by vm_compute.
      - intros c q Hq _. by apply (Hhalf c). }
  destruct Hok as (row & matrix & Hrow & Hcons).
  unfold Proj.calculate_collaborative_scores. rewrite Hsim, Hu.
  unfold Proj.at_index. rewrite Hrow. cbn [mbind result_bind bind].
  assert (Forall (fun n => (n < length row)%nat)
            (Proj.similar_users row top_k)) as Hns.
  { apply Forall_forall. intros n. apply similar_users_in_range. }
  destruct (score_loop_spec
              (Proj.collaborative_score self row
                 (Proj.similar_users row top_k)) candidates ∅)
    as (scores & -> & Hat & Hother).
  { intros p _.
    destruct (collaborative_score_spec self row matrix _ p Hcons Hns)
      as (q & Hq & _).
    by exists q. }
  assert (forall c q, scores !! c = Some q ->
            c ∈ candidates
            /\ Proj.collaborative_score self row
                 (Proj.similar_users row top_k) c = Ok q) as Hback.
  { intros c q Hq. destruct (decide (c ∈ candidates)) as [Hin|Hout].
    - split; [done|]. destruct (Hat c Hin) as (q' & Hq' & Hl). congruence.
    - rewrite (Hother c Hout), lookup_empty in Hq. done. }
  exists scores. split; [done|]. split; [|split].
  - apply set_eq. intros c. rewrite elem_of_dom, elem_of_list_to_set. split.
    + intros [q Hq]. by destruct (Hback c q Hq).
    + intros Hin. destruct (Hat c Hin) as (q & _ & Hq). by exists q.
  - intros c q Hq. destruct (Hback c q Hq) as [_ Hscore].
    destruct (collaborative_score_spec self row matrix _ c Hcons Hns)
      as (q' & Hq' & Hspec).
    assert (q' = q) as -> by congruence. rewrite Hspec.
    destruct (Proj.item_index self !! c) as [j|]; [|split; by vm_compute].
    destruct Hcons as (_ & _ & _ & Hrowpos & Hmpos).
    apply neighbour_average_unit.
    + intros n. unfold similarity_of.
      destruct (row !! n) as [s|] eqn:Hs; simpl; [|done].
      rewrite Forall_forall in Hrowpos. apply Hrowpos.
      by eapply list_elem_of_lookup_2.
    + intros n. unfold interaction_of.
      destruct (matrix !! n) as [r|] eqn:Hr; simpl; [|done].
      destruct (r !! j) as [z|] eqn:Hz; simpl; [|done].
      rewrite Forall_forall in Hmpos.
      pose proof (Hmpos r (list_elem_of_lookup_2 _ _ _ Hr)) as Hr'.
      rewrite Forall_forall in Hr'. apply Hr'. by eapply list_elem_of_lookup_2.
  - intros c q Hq Hnone. destruct (Hback c q Hq) as [_ Hscore].
    unfold Proj.collaborative_score in Hscore. rewrite Hnone in Hscore.
    congruence.
Qed.

(** X20: on a snapshot that can score for the user, the collaborative
    scorer returns; the keys of the result are the candidate ids, every
    score lies in [0, 1], and a candidate outside the item index gets
    0.5. *)
Theorem collaborative_scores_unit (self : Proj.engine) (user_id : string)
    (candidates : list string) (top_k : Z) :
  scorable self user_id ->
  exists scores,
    Proj.calculate_collaborative_scores self user_id candidates top_k
    = Ok scores
    /\ dom scores = list_to_set candidates
    /\ (forall c q, scores !! c = Some q -> 0 <= q <= 1)
    /\ (forall c q, scores !! c = Some q ->
                    Proj.item_index self !! c = None -> q = 0.5).
Proof. apply scorable_scores. Qed.

Lemma collaborative_scores_unit_witness :
  exists scores,
    Proj.calculate_collaborative_scores twin_engine "u1" ["p"; "new"] 50
    = Ok scores
    /\ dom scores = list_to_set ["p"; "new"].
Proof.
  destruct (collaborative_scores_unit twin_engine "u1" ["p"; "new"] 50)
    as (scores & Hs & Hdom & _).
  - exists [1; 1], [[1]; [1]]%Z. split; [reflexivity|].
    split; [reflexivity|]. split; [reflexivity|]. split.
    + intros p j Hp.
      assert (j < 1)%nat.
      { destruct (decide (p = "p")) as [->|Hne];
          [vm_compute in Hp; injection Hp as <-; lia|].
        unfold twin_engine in Hp. simpl in Hp.
        unfold Proj.index_of in Hp. simpl in Hp.
        rewrite lookup_insert_ne in Hp by done. done. }
      repeat (constructor; [simpl; lia|]). constructor.
    + split.
      * repeat (constructor; [by vm_compute|]). constructor.
      * repeat (constructor; [repeat (constructor; [lia|]); constructor|]).
        constructor.
  - by exists scores.
Defined.

(** ** Training, then scoring *)

(** X21: after a training pass that returns, if [cosine_similarity] gave
    a square matrix over the distinct users without negative entries, the
    snapshot can score for every user id: the collaborative scorer
    returns, with one score in [0, 1] per candidate id. *)
Theorem train_then_score
    (cosine_similarity : list (list Z) -> result (list (list Q)))
    (self : Proj.engine) (interaction_data : Proj.DataFrame)
    (report : Proj.metrics) (user_id : string) (candidates : list string)
    (top_k : Z) :
  let run :=
    Proj.train_collaborative_model cosine_similarity self interaction_data in
  let trained := fst (fst run) in
  let users :=
    size (list_to_set (Proj.user_id <$> Proj.rows interaction_data)
          : gset string) in
  snd run = Ok report ->
  (forall sim, Proj.similarity_model trained = Some sim ->
     length sim = users
     /\ Forall (fun row => length row = users /\ Forall (fun s => 0 <= s) row)
               sim) ->
  scorable trained user_id
  /\ exists scores,
      Proj.calculate_collaborative_scores trained user_id candidates top_k
      = Ok scores
      /\ dom scores = list_to_set candidates
      /\ forall c q, scores !! c = Some q -> 0 <= q <= 1.
Proof.
  intros run trained users Hok Hsim.
  destruct (training_success_facts cosine_similarity self interaction_data
              report Hok)
    as (Hcos & Hmat & _ & Hui & Hpj & _ & _ & _ & _).
  destruct (interaction_matrix_facts interaction_data)
    as (Hnu & Hnp & _ & _ & Hlen & Hrows & Hpos & _).
  fold trained in Hcos, Hmat, Hui, Hpj.
  assert (scorable trained user_id) as Hscorable.
  { unfold scorable.
    destruct (Proj.similarity_model trained) as [sim|] eqn:Es; [|done].
    destruct (Proj.user_index trained !! user_id) as [u|] eqn:Eu; [|done].
    destruct (Hsim sim eq_refl) as [Hn Hall].
    apply Hui in Eu.
    assert (length (Proj.index (snd (Proj._create_interaction_matrix
                                       interaction_data))) = users) as Hlu.
    { apply length_labels. }
    assert (u < length sim)%nat as Hul.
    { rewrite Hn, <- Hlu. by eapply lookup_lt_Some. }
    apply lookup_lt_is_Some in Hul as [row Hrow].
    rewrite Forall_forall in Hall.
    destruct (Hall row (list_elem_of_lookup_2 _ _ _ Hrow)) as [Hrl Hrp].
    exists row, (Proj.values (snd (Proj._create_interaction_matrix
                                     interaction_data))).
    split; [done|]. split; [done|]. split; [by rewrite Hrl, Hlen, Hlu|].
    split; [|by split].
    intros p j Hp. apply Hpj in Hp. apply lookup_lt_Some in Hp.
    eapply Forall_impl; [exact Hrows|]. simpl. intros r ->. done. }
  split; [done|].
  destruct (scorable_scores trained user_id candidates top_k Hscorable)
    as (scores & Hs & Hdom & Hunit & _).
  by exists scores.
Qed.

Lemma train_then_score_witness :
  exists scores,
    Proj.calculate_collaborative_scores
      (fst (fst (Proj.train_collaborative_model (fun _ => Ok twin_similarity)
                   (Proj.init "20250101") two_views)))
      "u0" ["p"] 50
    = Ok scores.
Proof.
  destruct (snd (Proj.train_collaborative_model (fun _ => Ok twin_similarity)
                   (Proj.init "20250101") two_views))
    as [report|e] eqn:E.
  - destruct (train_then_score (fun _ => Ok twin_similarity)
                (Proj.init "20250101") two_views report "u0" ["p"] 50 E)
      as (_ & scores & H & _).
    + intros sim Hsim. vm_compute in Hsim. injection Hsim as <-.
      split; [reflexivity|].
      repeat (constructor; [split; [reflexivity|];
                            repeat (constructor; [by vm_compute|]);
                            constructor|]).
      constructor.
    + by exists scores.
  - vm_compute in E. discriminate E.
Defined.

(** ** Model information after training ([api/main.py], lines 299-323) *)

Lemma count_nonzero_le (m : list (list Z)) :
  (Proj.count_nonzero m <= Proj.matrix_size m)%nat.
Proof.
  unfold Proj.count_nonzero, Proj.matrix_size.
  induction m as [|row m IH]; [done|]. csimpl.
  pose proof (length_filter (fun z : Z => z <> 0%Z) row). lia.
Qed.

Lemma matrix_size_table {A B} (f : A -> B -> Z) (us : list A) (ps : list B) :
  Proj.matrix_size ((fun u => f u <$> ps) <$> us)
  = (length us * length ps)%nat.
Proof.
  unfold Proj.matrix_size.
  induction us as [|u us IH]; [done|]. csimpl.
  rewrite IH, length_fmap. lia.
Qed.

Lemma labels_nil (l : list string) : Proj.labels l = [] <-> l = [].
Proof.
  split; [|by intros ->].
  intros H. destruct l as [|x l]; [done|].
  assert (x ∈ Proj.labels (x :: l)) as Hx by (apply elem_of_labels; left).
  rewrite H in Hx. by apply elem_of_nil in Hx.
Qed.

(** X22: after a training pass on at least one interaction,
    [get_model_info] reports the user and project counts and the sparsity
    of the training metrics, with the engine's version tag, and the
    sparsity lies in [0, 1]. *)
Theorem model_info_after_training
    (cosine_similarity : list (list Z) -> result (list (list Q)))
    (self : Proj.engine) (interaction_data : Proj.DataFrame)
    (report : Proj.metrics) (loaded : bool) :
  let run :=
    Proj.train_collaborative_model cosine_similarity self interaction_data in
  let info :=
    Api.get_model_info
      {| Api.project_engine := fst (fst run); Api.MODEL_LOADED := loaded |} in
  snd run = Ok report ->
  Proj.rows interaction_data <> [] ->
  Api.info_num_users info = Proj.num_users report
  /\ Api.info_num_projects info = Proj.num_items report
  /\ Api.info_model_version info = Proj.model_version self
  /\ exists q, Proj.sparsity report = Some q
               /\ Api.info_matrix_sparsity info = Some (Some q)
               /\ 0 <= q <= 1.
Proof.
  cbv zeta. unfold Proj.train_collaborative_model, Api.get_model_info.
  cbn [Proj._create_interaction_matrix fst snd].
  destruct (cosine_similarity _) as [sim|e] eqn:Hcos; [|discriminate].
  cbn [fst snd]. intros [= <-] Hrows.
  cbn [Api.project_engine Proj.num_users Proj.num_items Proj.sparsity
       Api.info_num_users Api.info_num_projects Api.info_matrix_sparsity
       Api.info_model_version].
  split; [done|]. split; [done|]. split; [done|].
  cbn [Proj.values Proj.rows Proj.user_item_matrix Proj.set_item_index
       Proj.set_user_index Proj.set_similarity_model
       Proj.set_user_item_matrix].
  match goal with
  | |- context [Proj.count_nonzero ?m] =>
      pose proof (count_nonzero_le m) as Hle
  end.
  rewrite matrix_size_table in *.
  clear Hcos.
  set (users := Proj.labels (Proj.user_id <$> _)) in *.
  set (projects := Proj.labels (Proj.project_id <$> _)) in *.
  assert (0 < length users * length projects)%nat as Hpos.
  { assert (users <> []) as Hu.
    { intros H. apply labels_nil, fmap_nil_inv in H. done. }
    assert (projects <> []) as Hp.
    { intros H. apply labels_nil, fmap_nil_inv in H. done. }
    destruct users, projects; try done. simpl. lia. }
  destruct (decide _) as [Hz|Hz]; [lia|].
  eexists. split; [reflexivity|]. split; [reflexivity|].
  pose proof (nat_ratio_bounds _ _ Hpos Hle) as [H0 H1].
  split; lra.
Qed.

Lemma model_info_after_training_witness :
  exists q,
    Api.info_matrix_sparsity
      (Api.get_model_info
         {| Api.project_engine := twin_engine; Api.MODEL_LOADED := true |})
    = Some (Some q)
    /\ 0 <= q <= 1.
Proof.
  destruct (snd (Proj.train_collaborative_model (fun _ => Ok twin_similarity)
                   (Proj.init "20250101") two_views))
    as [report|e] eqn:E.
  - destruct (model_info_after_training (fun _ => Ok twin_similarity)
                (Proj.init "20250101") two_views report true E)
      as (_ & _ & _ & q & _ & Hq & Hb); [discriminate|].
    by exists q.
  - vm_compute in E. discriminate E.
Defined.

(** ** Jaccard overlap (lines 214-224) *)

(** X23: [_calculate_skill_overlap] is 0.5 for an empty required set and
    otherwise |skills ∩ required| / |skills ∪ required|: it lies in
    [0, 1], is 1.0 exactly when the two sets are equal, and never exceeds
    the skill match factor. *)
Theorem skill_overlap_jaccard (developer_skills required_skills : gset string) :
  let overlap :=
    Proj._calculate_skill_overlap developer_skills required_skills in
  (required_skills = ∅ -> overlap = 0.5)
  /\ (required_skills <> ∅ ->
      overlap
      = inject_Z (Z.of_nat (size (developer_skills ∩ required_skills)))
        / inject_Z (Z.of_nat (size (developer_skills ∪ required_skills)))
      /\ 0 <= overlap <= 1
      /\ (overlap == 1 <-> developer_skills = required_skills)
      /\ overlap <= Proj.skill_match developer_skills required_skills).
Proof.
  intros overlap. subst overlap. unfold Proj._calculate_skill_overlap.
  split; [by intros ->|]. intros Hne.
  pose proof (size_pos _ Hne) as Hreq.
  destruct (decide _) as [Hz|_]; [lia|].
  assert (size required_skills <= size (developer_skills ∪ required_skills))%nat
    as Hru by apply subseteq_size, union_subseteq_r.
  assert (size (developer_skills ∩ required_skills)
          <= size required_skills)%nat
    as Hir by apply subseteq_size, intersection_subseteq_r.
  assert (0 < len (developer_skills ∪ required_skills)) as Hpos.
  { unfold len. change 0 with (inject_Z 0). rewrite <- Zlt_Qlt. lia. }
  apply Qltb_lt in Hpos as Hb. rewrite Hb. unfold len in *.
  split; [done|]. split; [apply nat_ratio_bounds; lia|]. split.
  - rewrite nat_ratio_one by lia. split.
    + intros Heq.
      assert (developer_skills ∩ required_skills
              ≡ developer_skills ∪ required_skills) as Hsame.
      { apply set_subseteq_size_equiv; [|lia].
        etrans; [apply intersection_subseteq_r|apply union_subseteq_r]. }
      apply set_eq. intros x. split; intros Hx.
      * assert (x ∈ developer_skills ∪ required_skills) as Hx'
          by (apply elem_of_union; by left).
        rewrite <- Hsame in Hx'. by apply elem_of_intersection in Hx' as [_ ?].
      * assert (x ∈ developer_skills ∪ required_skills) as Hx'
          by (apply elem_of_union; by right).
        rewrite <- Hsame in Hx'. by apply elem_of_intersection in Hx' as [? _].
    + intros ->. f_equal. by rewrite intersection_idemp_L, union_idemp_L.
  - rewrite skill_match_nonempty by done. unfold len.
    set (i := inject_Z (Z.of_nat (size (developer_skills ∩ required_skills)))).
    assert (0 <= i) as Hi.
    { unfold i. change 0 with (inject_Z 0). rewrite <- Zle_Qle. lia. }
    assert (0 < inject_Z (Z.of_nat (size required_skills))) as Hr.
    { change 0 with (inject_Z 0). rewrite <- Zlt_Qlt. lia. }
    assert (inject_Z (Z.of_nat (size required_skills))
            <= inject_Z (Z.of_nat (size (developer_skills ∪ required_skills))))
      as Hle by (rewrite <- Zle_Qle; lia).
    apply Qle_shift_div_r; [lra|].
    set (r := inject_Z (Z.of_nat (size required_skills))) in *.
    assert (i / r * r == i) as Hir'.
    { unfold Qdiv. rewrite <- Qmult_assoc, (Qmult_comm (/ r)), Qmult_inv_r; lra. }
    assert (0 <= i / r) as Ht by (apply Qle_shift_div_l; lra).
    rewrite <- Hir' at 1. apply Qmult_le_compat_nonneg; split; lra.
Qed.

Lemma skill_overlap_jaccard_witness :
  Proj._calculate_skill_overlap (set ["python"; "react"])
    (set ["python"; "react"; "aws"])
  <= Proj.skill_match (set ["python"; "react"])
       (set ["python"; "react"; "aws"]).
Proof.
  destruct (skill_overlap_jaccard (set ["python"; "react"])
              (set ["python"; "react"; "aws"])) as [_ H].
  apply H. intros Hempty. apply (f_equal size) in Hempty.
  vm_compute in Hempty. discriminate Hempty.
Defined.

(** ** A negative limit (lines 422-429) *)

(** X24: with a negative limit the slice [[:limit]] counts from the end:
    the ranking drops its last |limit| entries and returns the rest,
    ranked 1, 2, ... *)
Theorem ranking_negative_limit (recs : list Recommendation) (limit : Z) :
  (limit < 0)%Z ->
  let out := rank_and_truncate limit recs in
  length out = Z.to_nat (Z.of_nat (length recs) + limit)
  /\ out = assign_ranks 0
             (take (Z.to_nat (Z.of_nat (length recs) + limit))
                   (sort_desc relevance_score recs))
  /\ forall k r, out !! k = Some r ->
                 rank_position r = Some (Z.of_nat k + 1)%Z.
Proof.
  intros Hneg out.
  assert (out = assign_ranks 0
            (take (Z.to_nat (Z.of_nat (length recs) + limit))
                  (sort_desc relevance_score recs))) as Hout.
  { unfold out, rank_and_truncate, slice, clamp.
    assert (length (sort_desc relevance_score recs) = length recs) as ->.
    { unfold sort_desc. by rewrite sort_by_perm. }
    destruct (Z.ltb_spec limit 0); [|lia]. cbn [Z.ltb Z.compare].
    rewrite (Z.min_l 0) by lia. cbn [Z.to_nat drop].
    rewrite Nat.sub_0_r. do 2 f_equal. lia. }
  split; [|split; [done|]].
  - rewrite Hout, length_assign_ranks, length_take.
    unfold sort_desc. rewrite sort_by_perm. lia.
  - intros k r. rewrite Hout, assign_ranks_lookup. intros Hk.
    apply fmap_Some in Hk as (r0 & _ & ->). simpl. f_equal; lia.
Qed.

Lemma ranking_negative_limit_witness :
  length (rank_and_truncate (-1)
            (Cold.recommendation_of ∅ <$> [popular_25; popular_0]))
  = 1%nat.
Proof.
  destruct (ranking_negative_limit
              (Cold.recommendation_of ∅ <$> [popular_25; popular_0]) (-1))
    as (H & _); [lia|].
  rewrite H. reflexivity.
Defined.
